(** * Financial analysis engine of Fintech-Advisor

    A shallow embedding of [backend/routes/analysis.js] and the properties
    its specification states about it.

    JavaScript numbers are IEEE 754 binary64 values: they are modelled by
    Rocq's primitive [float], whose operations are the same binary64
    operations, so a closed computation below returns what the JavaScript
    expression returns.  Integers that JavaScript keeps in a Number
    (array lengths, calendar fields, time values in milliseconds) are kept
    in [Z] and injected with [Z2F]; they are far below 2^53, where binary64
    arithmetic on integers is exact. *)

From Stdlib Require Import ZArith List String Ascii Bool Lia Floats DecimalString.
From Stdlib Require Import Sorted Permutation OrderedTypeEx.
Import ListNotations.

Set Warnings "-inexact-float".

Local Open Scope string_scope.
Local Open Scope Z_scope.

(* ================================================================== *)
(** ** Numbers *)

Module Num.

(** The Number nearest to an integer (round to nearest, ties to even). *)
Definition Z2F (z : Z) : float :=
  SF2Prim (binary_normalize prec emax z 0 false).

(** A finite Number as [m * 2^e] with [m] an integer. *)
Definition decompose (x : float) : option (Z * Z) :=
  match Prim2SF x with
  | S754_zero _ => Some (0, 0)
  | S754_finite s m e => Some (if s then Z.neg m else Z.pos m, e)
  | S754_infinity _ | S754_nan => None
  end.

(** [floor (m * 2^e)]. *)
Definition floor_scaled (m e : Z) : Z :=
  if 0 <=? e then m * 2 ^ e else m / 2 ^ (- e).

(** Truncation toward zero of a finite Number (ToIntegerOrInfinity). *)
Definition truncate (x : float) : option Z :=
  match decompose x with
  | Some (m, e) =>
      Some (if 0 <=? m then floor_scaled m e else - floor_scaled (- m) e)
  | None => None
  end.

(** [Math.round]: the integer nearest to [x], ties toward +Infinity;
    NaN, the infinities and the zeros are returned as they are, and a
    negative [x] that rounds to zero gives -0. *)
Definition Math_round (x : float) : float :=
  match decompose x with
  | None => x
  | Some (m, e) =>
      if 0 <=? e then x
      else
        let n := (2 * m + 2 ^ (- e)) / 2 ^ (- e + 1) in
        if n =? 0 then (if (x <? 0)%float then neg_zero else zero)
        else Z2F n
  end.

(** [Math.min] of two Numbers: NaN if either is NaN, and -0 below +0. *)
Definition Math_min (x y : float) : float :=
  if is_nan x || is_nan y then nan
  else if (x <? y)%float then x
  else if (y <? x)%float then y
  else if is_zero x && get_sign y then y
  else x.

(** JavaScript's [>], [>=] and [<] on Numbers (false when either is NaN). *)
Definition gt (x y : float) : bool := (y <? x)%float.
Definition ge (x y : float) : bool := (y <=? x)%float.
Definition lt (x y : float) : bool := (x <? y)%float.
Definition le (x y : float) : bool := (x <=? y)%float.

End Num.

(* ================================================================== *)
(** ** Values and the conversions of the language *)

(** What a property of a database row can hold once the driver has read
    it: a Number, a String, [null], or nothing at all ([undefined]). *)
Inductive value : Type :=
| VUndefined
| VNull
| VNum (x : float)
| VStr (s : string).

(** A Date object: its time value, in milliseconds since the epoch, or
    nothing for an Invalid Date (whose time value is NaN). *)
Definition Date : Type := option Z.

(** The conversions between Strings and other types that the engine
    reaches only through the built-ins of the runtime.  They are left
    open: every theorem holds whatever they compute.  [LocalTZA t] is
    the offset of local time from UTC at time [t], in milliseconds. *)
Class Runtime : Type := {
  NumberToString : float -> string;
  StringToNumber : string -> float;
  DateParse : string -> Date;
  LocalTZA : Z -> Z
}.

(** An integer-valued Number, or NaN. *)
Definition int_num (n : option Z) : float :=
  match n with
  | Some z => Num.Z2F z
  | None => nan
  end.

Section Language.

Context {rt : Runtime}.

Definition ToNumber (v : value) : float :=
  match v with
  | VUndefined => nan
  | VNull => 0%float
  | VNum x => x
  | VStr s => StringToNumber s
  end.

Definition ToString (v : value) : string :=
  match v with
  | VUndefined => "undefined"
  | VNull => "null"
  | VNum x => NumberToString x
  | VStr s => s
  end.

Definition ToBoolean (v : value) : bool :=
  match v with
  | VUndefined | VNull => false
  | VNum x => negb (is_nan x || is_zero x)
  | VStr s => negb (s =? "")%string
  end.

(** [a || b]. *)
Definition js_or (a b : value) : value :=
  if ToBoolean a then a else b.

(** [a + b]: concatenation as soon as one operand is a String. *)
Definition js_add (a b : value) : value :=
  match a, b with
  | VStr _, _ | _, VStr _ => VStr (ToString a ++ ToString b)
  | _, _ => VNum (ToNumber a + ToNumber b)%float
  end.

(** [a - b], [a * b], [a / b]: always on Numbers. *)
Definition js_sub (a b : value) : float := (ToNumber a - ToNumber b)%float.
Definition js_mul (a b : value) : float := (ToNumber a * ToNumber b)%float.
Definition js_div (a b : value) : float := (ToNumber a / ToNumber b)%float.

(** [a < b], [a > b], [a >= b]: two Strings are compared as Strings,
    anything else as Numbers. *)
Definition js_lt (a b : value) : bool :=
  match a, b with
  | VStr s, VStr t => String.ltb s t
  | _, _ => Num.lt (ToNumber a) (ToNumber b)
  end.

Definition js_gt (a b : value) : bool := js_lt b a.

Definition js_ge (a b : value) : bool :=
  match a, b with
  | VStr s, VStr t => negb (String.ltb s t)
  | _, _ => Num.ge (ToNumber a) (ToNumber b)
  end.

(** [a === b]. *)
Definition strict_eq (a b : value) : bool :=
  match a, b with
  | VUndefined, VUndefined | VNull, VNull => true
  | VNum x, VNum y => (x =? y)%float
  | VStr s, VStr t => (s =? t)%string
  | _, _ => false
  end.

(** [Math.min(a, b)]. *)
Definition Math_min (a b : value) : float :=
  Num.Math_min (ToNumber a) (ToNumber b).

(* ------------------------------------------------------------------ *)
(** *** Dates *)

(** TimeClip: a time value out of a Number. *)
Definition TimeClip (x : float) : Date :=
  match Num.truncate x with
  | Some z => if Z.abs z <=? 8640000000000000 then Some z else None
  | None => None
  end.

(** [new Date(v)]. *)
Definition new_Date (v : value) : Date :=
  match v with
  | VUndefined => None
  | VNull => Some 0
  | VNum x => TimeClip x
  | VStr s => DateParse s
  end.

(** A Date read as a Number. *)
Definition Date_valueOf (d : Date) : float := int_num d.

Definition msPerDay : Z := 86400000.

(** The civil date (year, month 1..12, day 1..31) of a day number counted
    from 1970-01-01, in the proleptic Gregorian calendar. *)
Definition civil_from_days (days : Z) : Z * Z * Z :=
  let z := days + 719468 in
  let era := z / 146097 in
  let doe := z - era * 146097 in
  let yoe := (doe - doe / 1460 + doe / 36524 - doe / 146096) / 365 in
  let doy := doe - (365 * yoe + yoe / 4 - yoe / 100) in
  let mp := (5 * doy + 2) / 153 in
  let d := doy - (153 * mp + 2) / 5 + 1 in
  let m := if mp <? 10 then mp + 3 else mp - 9 in
  ((if m <=? 2 then yoe + era * 400 + 1 else yoe + era * 400), m, d).

Definition LocalTime (t : Z) : Z := t + LocalTZA t.

Definition YearFromTime (t : Z) : Z :=
  let '(y, _, _) := civil_from_days (t / msPerDay) in y.

(** Months are numbered from 0, as [getMonth] numbers them. *)
Definition MonthFromTime (t : Z) : Z :=
  let '(_, m, _) := civil_from_days (t / msPerDay) in m - 1.

Definition getFullYear (d : Date) : option Z :=
  option_map (fun t => YearFromTime (LocalTime t)) d.

Definition getMonth (d : Date) : option Z :=
  option_map (fun t => MonthFromTime (LocalTime t)) d.

End Language.

(* ------------------------------------------------------------------ *)
(** *** The system clock *)

(** [new Date()] reads the system clock.  The clock is the only state the
    engine touches: it is threaded through the functions that read it, as
    the readings still to come. *)
Definition Clock : Type := nat -> Z.

Definition IO (A : Type) : Type := Clock -> A * Clock.

Definition ret {A : Type} (a : A) : IO A := fun c => (a, c).

Definition bind {A B : Type} (m : IO A) (k : A -> IO B) : IO B :=
  fun c => let (a, c') := m c in k a c'.

Notation "'let*' x ':=' m 'in' k" := (bind m (fun x => k))
  (at level 10, x name, m at level 100, k at level 200).

(** [new Date()]. *)
Definition Date_now : IO Date :=
  fun c => (Some (c 0%nat), fun n => c (S n)).

(** [array.filter(f)] for a callback that reads the clock: the elements
    are visited in index order. *)
Fixpoint filterM {A : Type} (f : A -> IO bool) (l : list A) : IO (list A) :=
  match l with
  | [] => ret []
  | x :: xs =>
      let* keep := f x in
      let* rest := filterM f xs in
      ret (if keep then x :: rest else rest)
  end.


(* ================================================================== *)
(** ** Objects used as maps, and arrays *)

(** An object whose properties are created one at a time: the pairs are
    kept in creation order. *)
Abbreviation Obj := (list (string * value)) (only parsing).

(** [o[k]], for a property of the object's own: the members that every
    object inherits ([constructor], [toString], ...) are not modelled,
    and a statement about what is read under a category leaves their
    names out (see [inheritedNames]). *)
Fixpoint obj_get (k : string) (o : Obj) : value :=
  match o with
  | [] => VUndefined
  | (k', v) :: o' => if (k =? k')%string then v else obj_get k o'
  end.

(** [o[k] = v], for a key other than [__proto__] (which an assignment
    does not create): an existing property keeps its place. *)
Fixpoint obj_set (k : string) (v : value) (o : Obj) : Obj :=
  match o with
  | [] => [(k, v)]
  | (k', v') :: o' =>
      if (k =? k')%string then (k', v) :: o' else (k', v') :: obj_set k v o'
  end.

Definition digit_of (c : ascii) : option N :=
  let n := N_of_ascii c in
  if ((48 <=? n) && (n <=? 57))%N then Some (n - 48)%N else None.

Fixpoint digits_value (s : string) (acc : N) : option N :=
  match s with
  | EmptyString => Some acc
  | String c s' =>
      match digit_of c with
      | Some d => digits_value s' (10 * acc + d)%N
      | None => None
      end
  end.

(** The array index a property key denotes, if any: the key is the
    decimal writing, without a leading zero, of an integer up to 2^32 - 2. *)
Definition array_index (k : string) : option N :=
  match k with
  | EmptyString => None
  | String c rest =>
      if (Ascii.eqb c "0" && negb (rest =? "")%string)%bool then None
      else
        match digits_value k 0 with
        | Some n => if (n <=? 4294967294)%N then Some n else None
        | None => None
        end
  end.

Fixpoint insert_index (e : N * (string * value)) (l : list (N * (string * value)))
  : list (N * (string * value)) :=
  match l with
  | [] => [e]
  | e' :: l' => if (fst e <? fst e')%N then e :: l else e' :: insert_index e l'
  end.

Definition indexed_entries (o : Obj) : list (N * (string * value)) :=
  fold_right
    (fun kv acc =>
       match array_index (fst kv) with
       | Some n => insert_index (n, kv) acc
       | None => acc
       end) [] o.

(** [Object.entries(o)]: the array indices first, in increasing order,
    then the other keys in creation order. *)
Definition Object_entries (o : Obj) : list (string * value) :=
  map snd (indexed_entries o)
  ++ filter (fun kv => match array_index (fst kv) with Some _ => false | None => true end) o.

(** [Object.keys(o)]. *)
Definition Object_keys (o : Obj) : list string := map fst (Object_entries o).

(** [array.sort(compare)]: a stable sort; [before x y] says that [compare]
    puts [x] strictly before [y].  The order is that of the language for
    a consistent comparison; for an inconsistent one (amounts that are
    NaN) it is left to the host. *)
Section Sort.
Context {A : Type} (before : A -> A -> bool).

Fixpoint insert_sorted (x : A) (l : list A) : list A :=
  match l with
  | [] => [x]
  | y :: l' => if before x y then x :: l else y :: insert_sorted x l'
  end.

Definition Array_sort (l : list A) : list A :=
  fold_left (fun acc x => insert_sorted x acc) l [].

End Sort.

(** [s.padStart(n, "0")]. *)
Definition padStart0 (n : nat) (s : string) : string :=
  string_of_list_ascii (repeat "0"%char (n - String.length s)) ++ s.

(** [a.length], [a[0]] and [a[a.length - 1]]. *)
Definition len {A : Type} (l : list A) : Z := Z.of_nat (List.length l).

(* ================================================================== *)
(** ** The rows the engine reads *)

Record Transaction : Type := {
  date : value;
  amount : value;
  type : value;
  category : value
}.

Record Target : Type := {
  target_amount : value;
  current_amount : value;
  target_date : value;
  created_at : value
}.

Record Budget : Type := {
  category_name : value;
  budget_amount : value;
  month : value;
  year : value
}.

(* ================================================================== *)
(** ** The reports the engine returns *)

Record CategoryAmount : Type := {
  name : string;
  cat_amount : value
}.

Record FlowReport : Type := {
  total : value;
  monthly : float;
  transactions : Z;
  categories : option (list CategoryAmount)
}.

Record NetIncome : Type := {
  net_total : float;
  net_monthly : float
}.

Record TargetAnalysis : Type := {
  totalTargets : Z;
  totalTargetAmount : value;
  totalCurrentAmount : value;
  overallProgress : float;
  completedTargets : Z;
  onTrackTargets : Z;
  behindTargets : Z
}.

(** [budgetUtilization] is a property that one of the two returns of
    [analyzeBudgets] does not create. *)
Record BudgetAnalysis : Type := {
  totalBudgets : Z;
  totalBudgetAmount : value;
  totalSpent : float;
  overBudget : Z;
  underBudget : Z;
  budgetUtilization : option float
}.

Inductive TrendDirection : Type := increasing | decreasing | stable.

Record SpendingTrends : Type := {
  monthlySpending : Obj;
  monthlyIncome : Obj;
  spendingTrend : float;
  trendDirection : TrendDirection
}.

Record Period : Type := {
  startDate : value;
  endDate : value;
  totalTransactions : Z
}.

Record Metrics : Type := {
  m_savingsRate : float;
  m_monthlyNetIncome : float;
  m_targetAnalysis : TargetAnalysis;
  m_budgetAnalysis : BudgetAnalysis;
  m_spendingTrends : SpendingTrends
}.

Record Report : Type := {
  income : FlowReport;
  expenses : FlowReport;
  investments : FlowReport;
  netIncome : NetIncome;
  savingsRate : float;
  targets : TargetAnalysis;
  budgets : BudgetAnalysis;
  trends : SpendingTrends;
  healthScore : float;
  period : Period
}.

(** An entry of the list that [generateRecommendations] returns. *)
Record Recommendation : Type := {
  rec_type : string;
  priority : string;
  title : string;
  description : string;
  action : string
}.

Record KeyMetrics : Type := {
  km_monthlyIncome : float;
  km_monthlyExpenses : float;
  monthlySavings : value;
  km_savingsRate : float;
  targetProgress : float
}.

(** What [generateSummary] returns; the two lists are arrays filtered by
    [Boolean], kept as arrays of values. *)
Record Summary : Type := {
  sum_healthScore : float;
  healthStatus : string;
  keyMetrics : KeyMetrics;
  strengths : list value;
  areasForImprovement : list value
}.

(* ================================================================== *)
(** ** The engine *)

Section Engine.

Context {rt : Runtime}.

(** [transactions.filter(t => t.type === kind)]. *)
Definition ofType (kind : string) (transactions : list Transaction) : list Transaction :=
  filter (fun t => strict_eq (type t) (VStr kind)) transactions.

(** [transactions.reduce((sum, t) => sum + t.amount, 0)]. *)
Definition sumAmounts (transactions : list Transaction) : value :=
  fold_left (fun sum t => js_add sum (amount t)) transactions (VNum 0).

(** [new Date(Math.min(...dates))] and [new Date(Math.max(...dates))]:
    the earliest and the latest time value, an Invalid Date as soon as one
    of the dates is invalid, and also for no date at all (the minimum of
    nothing is Infinity). *)
Definition extreme_date (pick : Z -> Z -> Z) (dates : list Date) : Date :=
  match dates with
  | [] => None
  | d :: rest =>
      fold_left
        (fun acc d' =>
           match acc, d' with
           | Some a, Some b => Some (pick a b)
           | _, _ => None
           end) rest d
  end.

(** Calculate monthly average. *)
Definition calculateMonthlyAverage (transactions : list Transaction) : float :=
  if (List.length transactions =? 0)%nat then 0%float
  else
    let dates := map (fun t => new_Date (date t)) transactions in
    let earliestDate := extreme_date Z.min dates in
    let latestDate := extreme_date Z.max dates in
    let monthsDiff :=
      match getFullYear latestDate, getFullYear earliestDate,
            getMonth latestDate, getMonth earliestDate with
      | Some ly, Some ey, Some lm, Some em => Some ((ly - ey) * 12 + (lm - em) + 1)
      | _, _, _, _ => None
      end in
    let totalAmount := sumAmounts transactions in
    js_div totalAmount (VNum (int_num monthsDiff)).

(** The comparison [(a, b) => b.amount - a.amount] puts [a] strictly
    before [b] when it is negative (a NaN counts as zero). *)
Definition byAmountDesc (a b : CategoryAmount) : bool :=
  Num.lt (js_sub (cat_amount b) (cat_amount a)) 0.

(** The body of the loop that fills the map of the categories. *)
Definition addToCategory (categories : Obj) (t : Transaction) : Obj :=
  let category := ToString (js_or (category t) (VStr "Uncategorized")) in
  obj_set category
    (js_add (js_or (obj_get category categories) (VNum 0)) (amount t))
    categories.

(** Get category breakdown. *)
Definition getCategoryBreakdown (transactions : list Transaction) : list CategoryAmount :=
  let categories := fold_left addToCategory transactions [] in
  Array_sort byAmountDesc
    (map (fun '(name, amount) => {| name := name; cat_amount := amount |})
       (Object_entries categories)).

(** [(t.current_amount || 0)]. *)
Definition currentAmount (t : Target) : value := js_or (current_amount t) (VNum 0).

(** The callback of the on-track filter. *)
Definition onTrack (t : Target) : IO bool :=
  let progress := js_div (currentAmount t) (target_amount t) in
  let targetDate := new_Date (target_date t) in
  let* currentDate := Date_now in
  let totalDays :=
    ((Date_valueOf targetDate - Date_valueOf (new_Date (created_at t)))
     / (1000 * 60 * 60 * 24))%float in
  let daysPassed :=
    ((Date_valueOf currentDate - Date_valueOf (new_Date (created_at t)))
     / (1000 * 60 * 60 * 24))%float in
  let expectedProgress := Num.Math_min (daysPassed / totalDays)%float 1 in
  ret (Num.ge progress (expectedProgress * 0.8)%float).

(** [Math.round(x * 100) / 100]. *)
Definition round2 (x : float) : float := (Num.Math_round (x * 100) / 100)%float.

(** Analyze targets. *)
Definition analyzeTargets (targets : list Target) : IO TargetAnalysis :=
  let totalTargets := len targets in
  let totalTargetAmount :=
    fold_left (fun sum t => js_add sum (target_amount t)) targets (VNum 0) in
  let totalCurrentAmount :=
    fold_left (fun sum t => js_add sum (currentAmount t)) targets (VNum 0) in
  let overallProgress :=
    if js_gt totalTargetAmount (VNum 0)
    then (js_div totalCurrentAmount totalTargetAmount * 100)%float
    else 0%float in
  let completedTargets :=
    len (filter (fun t => js_ge (currentAmount t) (target_amount t)) targets) in
  let* onTrackList := filterM onTrack targets in
  let onTrackTargets := len onTrackList in
  ret {| totalTargets := totalTargets;
         totalTargetAmount := totalTargetAmount;
         totalCurrentAmount := totalCurrentAmount;
         overallProgress := round2 overallProgress;
         completedTargets := completedTargets;
         onTrackTargets := onTrackTargets;
         behindTargets := totalTargets - completedTargets - onTrackTargets |}.

(** [transactions.filter(t => t.category === budget.category_name &&
    t.type === 'expense').reduce((sum, t) => sum + t.amount, 0)]. *)
Definition categorySpent (transactions : list Transaction) (budget : Budget) : value :=
  sumAmounts
    (filter (fun t => strict_eq (category t) (category_name budget)
                      && strict_eq (type t) (VStr "expense"))
       transactions).

(** Analyze budgets. *)
Definition analyzeBudgets (budgets : list Budget) (transactions : list Transaction)
    (currentMonth currentYear : value) : BudgetAnalysis :=
  let currentBudgets :=
    filter (fun b => strict_eq (month b) currentMonth && strict_eq (year b) currentYear)
      budgets in
  if (List.length currentBudgets =? 0)%nat then
    {| totalBudgets := 0;
       totalBudgetAmount := VNum 0;
       totalSpent := 0;
       overBudget := 0;
       underBudget := 0;
       budgetUtilization := None |}
  else
    let totalBudgetAmount :=
      fold_left (fun sum b => js_add sum (budget_amount b)) currentBudgets (VNum 0) in
    let totalSpent :=
      fold_left
        (fun sum budget =>
           (sum + Math_min (categorySpent transactions budget) (budget_amount budget))%float)
        currentBudgets 0%float in
    let overBudget :=
      len (filter
             (fun budget => js_gt (categorySpent transactions budget) (budget_amount budget))
             currentBudgets) in
    {| totalBudgets := len currentBudgets;
       totalBudgetAmount := totalBudgetAmount;
       totalSpent := totalSpent;
       overBudget := overBudget;
       underBudget := len currentBudgets - overBudget;
       budgetUtilization :=
         Some (if js_gt totalBudgetAmount (VNum 0)
               then (js_div (VNum totalSpent) totalBudgetAmount * 100)%float
               else 0%float) |}.

(** [`${date.getFullYear()}-${(date.getMonth() + 1).toString().padStart(2, '0')}`]. *)
Definition monthKey (d : Date) : string :=
  NumberToString (int_num (getFullYear d)) ++ "-"
  ++ padStart0 2 (NumberToString (int_num (option_map (Z.add 1) (getMonth d)))).

(** The body of the loop that fills the two monthly maps. *)
Definition bucket (maps : Obj * Obj) (t : Transaction) : Obj * Obj :=
  let '(monthlySpending, monthlyIncome) := maps in
  let key := monthKey (new_Date (date t)) in
  if strict_eq (type t) (VStr "expense") then
    (obj_set key (js_add (js_or (obj_get key monthlySpending) (VNum 0)) (amount t))
       monthlySpending,
     monthlyIncome)
  else if strict_eq (type t) (VStr "income") then
    (monthlySpending,
     obj_set key (js_add (js_or (obj_get key monthlyIncome) (VNum 0)) (amount t))
       monthlyIncome)
  else maps.

(** The trend before it is rounded for the report. *)
Definition rawTrend (monthlySpending : Obj) : float :=
  let months := Array_sort String.ltb (Object_keys monthlySpending) in
  if 1 <? len months then
    (js_sub (js_or (obj_get (last months "") monthlySpending) (VNum 0))
            (js_or (obj_get (hd "" months) monthlySpending) (VNum 0))
     / Num.Z2F (len months))%float
  else 0%float.

(** Analyze spending trends. *)
Definition analyzeSpendingTrends (transactions : list Transaction) : SpendingTrends :=
  let '(monthlySpending, monthlyIncome) := fold_left bucket transactions ([], []) in
  let spendingTrend := rawTrend monthlySpending in
  {| monthlySpending := monthlySpending;
     monthlyIncome := monthlyIncome;
     spendingTrend := round2 spendingTrend;
     trendDirection :=
       if Num.gt spendingTrend 0 then increasing
       else if Num.lt spendingTrend 0 then decreasing
       else stable |}.

(** Calculate financial health score. *)
Definition calculateFinancialHealthScore (metrics : Metrics) : float :=
  let score := 0%float in
  let maxScore := 0%float in
  (* Savings rate (30 points max) *)
  let maxScore := (maxScore + 30)%float in
  let score :=
    if Num.ge (m_savingsRate metrics) 20 then (score + 30)%float
    else if Num.ge (m_savingsRate metrics) 10 then (score + 20)%float
    else if Num.ge (m_savingsRate metrics) 5 then (score + 10)%float
    else score in
  (* Positive net income (25 points max) *)
  let maxScore := (maxScore + 25)%float in
  let score :=
    if Num.gt (m_monthlyNetIncome metrics) 0 then (score + 25)%float
    else if Num.ge (m_monthlyNetIncome metrics) (-1000) then (score + 15)%float
    else score in
  (* Target progress (20 points max) *)
  let maxScore := (maxScore + 20)%float in
  let score :=
    if Num.ge (overallProgress (m_targetAnalysis metrics)) 80 then (score + 20)%float
    else if Num.ge (overallProgress (m_targetAnalysis metrics)) 50 then (score + 15)%float
    else if Num.ge (overallProgress (m_targetAnalysis metrics)) 25 then (score + 10)%float
    else score in
  (* Budget adherence (15 points max) *)
  let maxScore := (maxScore + 15)%float in
  let score :=
    if overBudget (m_budgetAnalysis metrics) =? 0 then (score + 15)%float
    else if Num.le (Num.Z2F (overBudget (m_budgetAnalysis metrics)))
                   (Num.Z2F (totalBudgets (m_budgetAnalysis metrics)) * 0.3)%float
         then (score + 10)%float
    else score in
  (* Spending trend (10 points max) *)
  let maxScore := (maxScore + 10)%float in
  let score :=
    match trendDirection (m_spendingTrends metrics) with
    | decreasing => (score + 10)%float
    | stable => (score + 5)%float
    | increasing => score
    end in
  Num.Math_round ((score / maxScore) * 100)%float.

(** [transactions.length > 0 ? transactions[i].date : null]. *)
Definition dateAt (pick : list Transaction -> option Transaction)
    (transactions : list Transaction) : value :=
  if 0 <? len transactions then
    match pick transactions with
    | Some t => date t
    | None => VUndefined
    end
  else VNull.

Definition first {A : Type} (l : list A) : option A := nth_error l 0.

Definition final {A : Type} (l : list A) : option A :=
  nth_error l (List.length l - 1).

(** Perform comprehensive financial analysis. *)
Definition performFinancialAnalysis (transactions : list Transaction)
    (targets : list Target) (budgets : list Budget) : IO Report :=
  let* currentDate := Date_now in
  let currentMonth := VNum (int_num (option_map (Z.add 1) (getMonth currentDate))) in
  let currentYear := VNum (int_num (getFullYear currentDate)) in
  (* Income analysis *)
  let incomeTransactions := ofType "income" transactions in
  let totalIncome := sumAmounts incomeTransactions in
  let monthlyIncome := calculateMonthlyAverage incomeTransactions in
  (* Expense analysis *)
  let expenseTransactions := ofType "expense" transactions in
  let totalExpenses := sumAmounts expenseTransactions in
  let monthlyExpenses := calculateMonthlyAverage expenseTransactions in
  (* Investment analysis *)
  let investmentTransactions := ofType "investment" transactions in
  let totalInvestments := sumAmounts investmentTransactions in
  let monthlyInvestments := calculateMonthlyAverage investmentTransactions in
  (* Net income calculation *)
  let netIncome := js_sub totalIncome totalExpenses in
  let monthlyNetIncome := (monthlyIncome - monthlyExpenses)%float in
  (* Savings rate *)
  let savingsRate :=
    if js_gt totalIncome (VNum 0)
    then (js_sub totalIncome totalExpenses / ToNumber totalIncome * 100)%float
    else 0%float in
  (* Category breakdown *)
  let expenseCategories := getCategoryBreakdown expenseTransactions in
  let incomeCategories := getCategoryBreakdown incomeTransactions in
  (* Target progress analysis *)
  let* targetAnalysis := analyzeTargets targets in
  (* Budget vs actual analysis *)
  let budgetAnalysis := analyzeBudgets budgets transactions currentMonth currentYear in
  (* Spending trends *)
  let spendingTrends := analyzeSpendingTrends transactions in
  (* Financial health score *)
  let healthScore :=
    calculateFinancialHealthScore
      {| m_savingsRate := savingsRate;
         m_monthlyNetIncome := monthlyNetIncome;
         m_targetAnalysis := targetAnalysis;
         m_budgetAnalysis := budgetAnalysis;
         m_spendingTrends := spendingTrends |} in
  ret {| income :=
           {| total := totalIncome;
              monthly := monthlyIncome;
              transactions := len incomeTransactions;
              categories := Some incomeCategories |};
         expenses :=
           {| total := totalExpenses;
              monthly := monthlyExpenses;
              transactions := len expenseTransactions;
              categories := Some expenseCategories |};
         investments :=
           {| total := totalInvestments;
              monthly := monthlyInvestments;
              transactions := len investmentTransactions;
              categories := None |};
         netIncome := {| net_total := netIncome; net_monthly := monthlyNetIncome |};
         savingsRate := round2 savingsRate;
         targets := targetAnalysis;
         budgets := budgetAnalysis;
         trends := spendingTrends;
         healthScore := healthScore;
         period :=
           {| startDate := dateAt final transactions;
              endDate := dateAt first transactions;
              totalTransactions := len transactions |} |}.

(** [analysis.monthlyNetIncome]: the object that
    [performFinancialAnalysis] returns has no property of that name (the
    monthly net income is [analysis.netIncome.monthly]), so that reading
    it gives undefined. *)
Definition monthlyNetIncome (analysis : Report) : value := VUndefined.

(** Generate recommendations. *)
Definition generateRecommendations (analysis : Report) : list Recommendation :=
  let recommendations : list Recommendation := [] in
  let recommendations :=
    if Num.lt (savingsRate analysis) 10 then
      (recommendations ++
       [{| rec_type := "savings";
           priority := "high";
           title := "Increase Savings Rate";
           description :=
             "Your current savings rate is " ++ NumberToString (savingsRate analysis)
             ++ "%. Consider increasing it to at least 10-20% for better financial security.";
           action :=
             "Review your expenses and identify areas to cut costs or increase income." |}])%list
    else recommendations in
  let recommendations :=
    if js_lt (monthlyNetIncome analysis) (VNum 0) then
      (recommendations ++
       [{| rec_type := "income";
           priority := "critical";
           title := "Negative Cash Flow";
           description :=
             "You are spending more than you earn. This is unsustainable in the long term.";
           action := "Immediately reduce expenses or find ways to increase income." |}])%list
    else recommendations in
  let recommendations :=
    if 0 <? behindTargets (targets analysis) then
      (recommendations ++
       [{| rec_type := "targets";
           priority := "medium";
           title := "Target Progress";
           description :=
             "You have " ++ NumberToString (Num.Z2F (behindTargets (targets analysis)))
             ++ " targets that are behind schedule.";
           action :=
             "Review your action plans and consider increasing monthly contributions." |}])%list
    else recommendations in
  let recommendations :=
    if 0 <? overBudget (budgets analysis) then
      (recommendations ++
       [{| rec_type := "budget";
           priority := "medium";
           title := "Budget Overspending";
           description :=
             "You are over budget in " ++ NumberToString (Num.Z2F (overBudget (budgets analysis)))
             ++ " categories.";
           action :=
             "Review your spending patterns and adjust your budget or spending habits." |}])%list
    else recommendations in
  let recommendations :=
    if strict_eq (total (investments analysis)) (VNum 0)
       && js_gt (monthlyNetIncome analysis) (VNum 0) then
      (recommendations ++
       [{| rec_type := "investment";
           priority := "medium";
           title := "Start Investing";
           description :=
             "You have positive cash flow but no investments. Consider starting to invest for long-term growth.";
           action :=
             "Research investment options like SIPs, mutual funds, or fixed deposits." |}])%list
    else recommendations in
  recommendations.

(** [condition ? text : null]. *)
Definition orNull (condition : bool) (text : string) : value :=
  if condition then VStr text else VNull.

(** Generate summary. *)
Definition generateSummary (analysis : Report) : Summary :=
  let healthScore := healthScore analysis in
  let healthStatus := "Poor" in
  let healthStatus :=
    if Num.ge healthScore 80 then "Excellent"
    else if Num.ge healthScore 60 then "Good"
    else if Num.ge healthScore 40 then "Fair"
    else healthStatus in
  {| sum_healthScore := healthScore;
     healthStatus := healthStatus;
     keyMetrics :=
       {| km_monthlyIncome := monthly (income analysis);
          km_monthlyExpenses := monthly (expenses analysis);
          monthlySavings := monthlyNetIncome analysis;
          km_savingsRate := savingsRate analysis;
          targetProgress := overallProgress (targets analysis) |};
     strengths :=
       filter ToBoolean
         [orNull (Num.gt (savingsRate analysis) 15) "Good savings rate";
          orNull (js_gt (monthlyNetIncome analysis) (VNum 0)) "Positive cash flow";
          orNull (0 <? completedTargets (targets analysis)) "Achieving financial goals";
          orNull (overBudget (budgets analysis) =? 0) "Good budget adherence"];
     areasForImprovement :=
       filter ToBoolean
         [orNull (Num.lt (savingsRate analysis) 10) "Increase savings rate";
          orNull (js_lt (monthlyNetIncome analysis) (VNum 0)) "Improve cash flow";
          orNull (0 <? behindTargets (targets analysis)) "Accelerate target progress";
          orNull (0 <? overBudget (budgets analysis)) "Better budget management"] |}.

End Engine.

(* ================================================================== *)
(** ** The vocabulary of the properties *)

Section Vocabulary.

Context {rt : Runtime}.

(* ------------------------------------------------------------------ *)
(** *** Budgets *)

(** A budget of the month [m] of the year [y]. *)
Definition inPeriod (m y : value) (b : Budget) : bool :=
  strict_eq (month b) m && strict_eq (year b) y.

Definition currentBudgets (m y : value) (budgets : list Budget) : list Budget :=
  filter (inPeriod m y) budgets.

(** What [analyzeBudgets] returns when no budget is of the period:
    zeros, and no [budgetUtilization] property. *)
Definition noBudgets : BudgetAnalysis :=
  {| totalBudgets := 0;
     totalBudgetAmount := VNum 0;
     totalSpent := 0;
     overBudget := 0;
     underBudget := 0;
     budgetUtilization := None |}.

(** The Number that an amount counts for: itself, and 0 when it is not a
    Number. *)
Definition counted (v : value) : float :=
  match v with
  | VNum x => x
  | _ => 0%float
  end.

(** Numbers added up from the left, starting from 0. *)
Definition sumOf (xs : list float) : float :=
  fold_left (fun sum x => (sum + x)%float) xs 0%float.

(** Values added up with [+], from the left. *)
Fixpoint addUp (sum : value) (amounts : list value) : value :=
  match amounts with
  | [] => sum
  | a :: rest => addUp (js_add sum a) rest
  end.

(** The total amount of transactions: their amounts added to 0, one
    after the other. *)
Definition totalAmount (transactions : list Transaction) : value :=
  addUp (VNum 0) (map amount transactions).





(* ------------------------------------------------------------------ *)
(** *** Clocks *)

(** Two clocks that give the same first [n] readings. *)
Definition agree (n : nat) (c1 c2 : Clock) : Prop :=
  forall i : nat, (i < n)%nat -> c1 i = c2 i.

(** The clock after one reading. *)
Definition later (c : Clock) : Clock := fun n => c (S n).

(* ------------------------------------------------------------------ *)
(** *** Dates and months *)

(** The time value of the date of a transaction. *)
Definition timeOf (t : Transaction) : Date := new_Date (date t).

(** Latest first. *)
Definition descending (times : list Z) : Prop :=
  StronglySorted (fun a b => b <= a) times.

(** The months from the month of [earliest] to the month of [latest],
    both included. *)
Definition monthsSpanned (earliest latest : Z) : Z :=
  (YearFromTime (LocalTime latest) - YearFromTime (LocalTime earliest)) * 12
  + (MonthFromTime (LocalTime latest) - MonthFromTime (LocalTime earliest)) + 1.

(** The months elapsed at time [t] since the year 0. *)
Definition monthIndex (t : Z) : Z := 12 * YearFromTime t + MonthFromTime t.

(** The year of a 400-year era and the day of that year (years start in
    March), as [civil_from_days] computes them from the day of the era,
    and the months since the start of the era. *)
Definition yearOfEra (doe : Z) : Z :=
  (doe - doe / 1460 + doe / 36524 - doe / 146096) / 365.

Definition dayOfYear (doe : Z) : Z :=
  doe - (365 * yearOfEra doe + yearOfEra doe / 4 - yearOfEra doe / 100).

Definition monthOfEra (doe : Z) : Z :=
  12 * yearOfEra doe + (5 * dayOfYear doe + 2) / 153.

(* ------------------------------------------------------------------ *)
(** *** Keys and trends *)

(** The keys of an object, in creation order. *)
Definition keys (o : Obj) : list string := map fst o.

(** A property whose key is an array index. *)
Definition isIndexed (kv : string * value) : bool :=
  match array_index (fst kv) with Some _ => true | None => false end.

(** In increasing order. *)
Definition increasingKeys (l : list string) : Prop :=
  StronglySorted (fun a b => String.leb a b = true) l.

(** The month keys of the expense transactions, and the distinct ones. *)
Definition expenseKeys (transactions : list Transaction) : list string :=
  map (fun t => monthKey (timeOf t)) (ofType "expense" transactions).

Definition spendingMonths (transactions : list Transaction) : list string :=
  nodup string_dec (expenseKeys transactions).

(** [(monthlySpending[k] || 0)]: what was spent in month [k]. *)
Definition spentIn (monthlySpending : Obj) (k : string) : value :=
  js_or (obj_get k monthlySpending) (VNum 0).

(** The direction that goes with a trend. *)
Definition directionOf (trend : float) : TrendDirection :=
  if Num.gt trend 0 then increasing
  else if Num.lt trend 0 then decreasing
  else stable.

(* ------------------------------------------------------------------ *)
(** *** Amounts *)

(** The transaction with 0 for an amount that is not a Number: what the
    specification says the engine counts. *)
Definition zeroed (t : Transaction) : Transaction :=
  match amount t with
  | VNum _ => t
  | _ => {| date := date t; amount := VNum 0; type := type t; category := category t |}
  end.

Definition numberOrNull (v : value) : Prop :=
  match v with
  | VNum _ | VNull => True
  | VUndefined | VStr _ => False
  end.

(** An amount that is a String. *)
Definition isText (v : value) : Prop := exists s : string, v = VStr s.

(** An object whose properties all hold Numbers. *)
Definition numericObj (o : Obj) : Prop :=
  Forall (fun kv => exists x : float, snd kv = VNum x) o.

(* ------------------------------------------------------------------ *)
(** *** The order of the Numbers *)

(** Where a Number stands among the Numbers: nothing for NaN, else its
    class (from -Infinity to +Infinity), then its exponent and mantissa. *)
Definition rank (x : spec_float) : option (Z * Z * Z) :=
  match x with
  | S754_nan => None
  | S754_infinity true => Some (-2, 0, 0)
  | S754_infinity false => Some (2, 0, 0)
  | S754_zero _ => Some (0, 0, 0)
  | S754_finite false m e => Some (1, e, Z.pos m)
  | S754_finite true m e => Some (-1, - e, Z.neg m)
  end.

Definition lexlt (p q : Z * Z * Z) : Prop :=
  let '(a, b, c) := p in
  let '(a', b', c') := q in
  a < a' \/ (a = a' /\ (b < b' \/ (b = b' /\ c < c'))).

Definition lexle (p q : Z * Z * Z) : Prop := lexlt p q \/ p = q.

Definition rankOf (x : float) : option (Z * Z * Z) := rank (Prim2SF x).

(* ------------------------------------------------------------------ *)
(** *** More of the budgets, the categories and the months *)

(** The transaction with another date. *)
Definition redate (t : Transaction) (d : value) : Transaction :=
  {| date := d; amount := amount t; type := type t; category := category t |}.

(** The key under which a transaction is counted in the breakdown. *)
Definition categoryKey (t : Transaction) : string :=
  ToString (js_or (category t) (VStr "Uncategorized")).

(** The names of the members that every object inherits from
    [Object.prototype]: in an object that has no property of its own of
    that name, [categories[name]] finds the inherited member. *)
Definition inheritedNames : list string :=
  ["constructor"; "__defineGetter__"; "__defineSetter__"; "hasOwnProperty";
   "__lookupGetter__"; "__lookupSetter__"; "isPrototypeOf";
   "propertyIsEnumerable"; "toString"; "valueOf"; "__proto__"; "toLocaleString"].

(** A transaction whose category is none of these names. *)
Definition plainCategory (t : Transaction) : Prop :=
  ~ In (categoryKey t) inheritedNames.

Definition incomeKeys (transactions : list Transaction) : list string :=
  map (fun t => monthKey (timeOf t)) (ofType "income" transactions).

(** A transaction that the monthly buckets count. *)
Definition isBucketed (t : Transaction) : bool :=
  strict_eq (type t) (VStr "expense") || strict_eq (type t) (VStr "income").

(* ------------------------------------------------------------------ *)
(** *** The parts of a report *)

(** The savings rate before it is rounded for the report. *)
Definition rawSavingsRate (transactions : list Transaction) : float :=
  let totalIncome := sumAmounts (ofType "income" transactions) in
  let totalExpenses := sumAmounts (ofType "expense" transactions) in
  if js_gt totalIncome (VNum 0)
  then (js_sub totalIncome totalExpenses / ToNumber totalIncome * 100)%float
  else 0%float.

(** The report of one type of transactions. *)
Definition flowOf (kind : string) (withCategories : bool)
    (transactions : list Transaction) : FlowReport :=
  let l := ofType kind transactions in
  {| total := sumAmounts l;
     monthly := calculateMonthlyAverage l;
     transactions := len l;
     categories := if withCategories then Some (getCategoryBreakdown l) else None |}.

(** The month and the year that the engine takes from the clock. *)
Definition monthOf (clock : Clock) : value :=
  VNum (int_num (option_map (Z.add 1) (getMonth (Some (clock 0%nat))))).

Definition yearOf (clock : Clock) : value :=
  VNum (int_num (getFullYear (Some (clock 0%nat)))).

Definition metricsOf (transactions : list Transaction) (targets : list Target)
    (budgets : list Budget) (clock : Clock) : Metrics :=
  {| m_savingsRate := rawSavingsRate transactions;
     m_monthlyNetIncome :=
       (calculateMonthlyAverage (ofType "income" transactions)
        - calculateMonthlyAverage (ofType "expense" transactions))%float;
     m_targetAnalysis := fst (analyzeTargets targets (later clock));
     m_budgetAnalysis := analyzeBudgets budgets transactions (monthOf clock) (yearOf clock);
     m_spendingTrends := analyzeSpendingTrends transactions |}.

(** Without the investments. *)
Definition notInvestment (t : Transaction) : bool :=
  negb (strict_eq (type t) (VStr "investment")).

Definition knownType (t : Transaction) : Prop :=
  type t = VStr "income" \/ type t = VStr "expense" \/ type t = VStr "investment".

(* ------------------------------------------------------------------ *)
(** *** Points and labels *)

(** The points of the five factors, as the five blocks of
    [calculateFinancialHealthScore] give them. *)
Definition savingsPoints (rate : float) : Z :=
  if Num.ge rate 20 then 30
  else if Num.ge rate 10 then 20
  else if Num.ge rate 5 then 10
  else 0.

Definition netIncomePoints (monthlyNet : float) : Z :=
  if Num.gt monthlyNet 0 then 25
  else if Num.ge monthlyNet (-1000) then 15
  else 0.

Definition progressPoints (progress : float) : Z :=
  if Num.ge progress 80 then 20
  else if Num.ge progress 50 then 15
  else if Num.ge progress 25 then 10
  else 0.

Definition budgetPoints (a : BudgetAnalysis) : Z :=
  if overBudget a =? 0 then 15
  else if Num.le (Num.Z2F (overBudget a)) (Num.Z2F (totalBudgets a) * 0.3)%float then 10
  else 0.

Definition trendPoints (d : TrendDirection) : Z :=
  match d with
  | decreasing => 10
  | stable => 5
  | increasing => 0
  end.

Definition pointsOf (metrics : Metrics) : Z :=
  savingsPoints (m_savingsRate metrics)
  + netIncomePoints (m_monthlyNetIncome metrics)
  + progressPoints (overallProgress (m_targetAnalysis metrics))
  + budgetPoints (m_budgetAnalysis metrics)
  + trendPoints (trendDirection (m_spendingTrends metrics)).

(** The label of a score. *)
Definition statusOf (n : Z) : string :=
  if 80 <=? n then "Excellent"
  else if 60 <=? n then "Good"
  else if 40 <=? n then "Fair"
  else "Poor".

(** A target both of whose dates are dates: [new Date(t.target_date)]
    and [new Date(t.created_at)] are valid. *)
Definition dated (t : Target) : bool :=
  match new_Date (target_date t), new_Date (created_at t) with
  | Some _, Some _ => true
  | _, _ => false
  end.

(** The types of the recommendations that the three live rules give. *)
Definition expectedAdvice (analysis : Report) : list string :=
  ((if Num.lt (savingsRate analysis) 10 then ["savings"] else [])
   ++ (if 0 <? behindTargets (targets analysis) then ["targets"] else [])
   ++ (if 0 <? overBudget (budgets analysis) then ["budget"] else []))%list.

End Vocabulary.

(* ================================================================== *)
(** ** A runtime to run the engine on

    A Node.js process whose time zone is UTC, as far as the worked
    examples need it: Numbers that are integers print as their decimal
    digits, a String made of decimal digits reads as that integer, and
    dates are parsed in the two formats the tables store,
    [YYYY-MM-DD] and [YYYY-MM-DD HH:MM:SS].  Non-integral Numbers,
    other numeric literals and other date formats are outside of what
    this instance reproduces. *)

Module Node.

Definition digits (z : Z) : string :=
  DecimalString.NilZero.string_of_int (Z.to_int z).

Definition number_to_string (x : float) : string :=
  if is_nan x then "NaN"
  else if is_infinity x then (if get_sign x then "-Infinity" else "Infinity")
  else match Num.truncate x with
       | Some z => digits z
       | None => "NaN"
       end.

Definition string_to_number (s : string) : float :=
  match s with
  | EmptyString => 0%float
  | String "-" s' =>
      match s', digits_value s' 0 with
      | String _ _, Some n => (- Num.Z2F (Z.of_N n))%float
      | _, _ => nan
      end
  | _ =>
      match digits_value s 0 with
      | Some n => Num.Z2F (Z.of_N n)
      | None => nan
      end
  end.

(** Days from 1970-01-01 to a civil date. *)
Definition days_from_civil (y m d : Z) : Z :=
  let y' := if m <=? 2 then y - 1 else y in
  let era := y' / 400 in
  let yoe := y' - era * 400 in
  let doy := (153 * (if 2 <? m then m - 3 else m + 9) + 2) / 5 + d - 1 in
  let doe := yoe * 365 + yoe / 4 - yoe / 100 + doy in
  era * 146097 + doe - 719468.

Definition number_of (cs : list ascii) : option Z :=
  option_map Z.of_N (digits_value (string_of_list_ascii cs) 0).

Definition civil_time (y m d hh mm ss : option Z) : Date :=
  match y, m, d, hh, mm, ss with
  | Some y, Some m, Some d, Some hh, Some mm, Some ss =>
      let days := days_from_civil y m d in
      if (let '(y', m', d') := civil_from_days days in
          (y' =? y) && (m' =? m) && (d' =? d))
         && (hh <? 24) && (mm <? 60) && (ss <? 60)
      then Some (days * msPerDay + hh * 3600000 + mm * 60000 + ss * 1000)
      else None
  | _, _, _, _, _, _ => None
  end.

Definition date_parse (s : string) : Date :=
  match list_ascii_of_string s with
  | [y1; y2; y3; y4; "-"; m1; m2; "-"; d1; d2]%char =>
      civil_time (number_of [y1; y2; y3; y4]) (number_of [m1; m2]) (number_of [d1; d2])
        (Some 0) (Some 0) (Some 0)
  | [y1; y2; y3; y4; "-"; m1; m2; "-"; d1; d2; " "; h1; h2; ":"; n1; n2; ":"; s1; s2]%char =>
      civil_time (number_of [y1; y2; y3; y4]) (number_of [m1; m2]) (number_of [d1; d2])
        (number_of [h1; h2]) (number_of [n1; n2]) (number_of [s1; s2])
  | _ => None
  end.

#[export] Instance runtime : Runtime := {|
  NumberToString := number_to_string;
  StringToNumber := string_to_number;
  DateParse := date_parse;
  LocalTZA := fun _ => 0
|}.

(** A clock that stands still at [now]. *)
Definition at_time (now : string) : Clock :=
  fun _ => match date_parse now with Some t => t | None => 0 end.

(** A clock whose first two readings are those of [at_time now]. *)
Definition drifting (now : string) : Clock :=
  fun n => if (n <? 2)%nat then at_time now n else 0.

(** A row of each table. *)
Definition transaction (d : string) (a : float) (ty cat : string) : Transaction :=
  {| date := VStr d; amount := VNum a; type := VStr ty; category := VStr cat |}.

Definition target (goal current : float) (due created : string) : Target :=
  {| target_amount := VNum goal; current_amount := VNum current;
     target_date := VStr due; created_at := VStr created |}.

Definition budget (cat : string) (a : float) (m y : Z) : Budget :=
  {| category_name := VStr cat; budget_amount := VNum a;
     month := VNum (Num.Z2F m); year := VNum (Num.Z2F y) |}.

End Node.


Import Node.

(* ================================================================== *)
(** ** Properties *)

(** Two different Numbers are told apart by an exact reading. *)
Lemma float_neq (x y : float) : Prim2SF x <> Prim2SF y -> x <> y.
Proof. intros H E. apply H. now rewrite E. Qed.

(* ------------------------------------------------------------------ *)
(** *** Sums *)

(** NaN spreads through an addition and a division. *)
Lemma add_nan_l (x : float) : (nan + x)%float = nan.
Proof.
  apply Prim2SF_inj. rewrite add_spec.
  change (Prim2SF nan) with S754_nan. reflexivity.
Qed.

Lemma add_nan_r (x : float) : (x + nan)%float = nan.
Proof.
  apply Prim2SF_inj. rewrite add_spec.
  change (Prim2SF nan) with S754_nan.
  unfold SF64add, SFadd. now destruct (Prim2SF x).
Qed.

Lemma div_nan (x : float) : (x / nan)%float = nan.
Proof.
  apply Prim2SF_inj. rewrite div_spec.
  change (Prim2SF nan) with S754_nan.
  unfold SF64div, SFdiv. now destruct (Prim2SF x).
Qed.


Section SumFacts.

Context {rt : Runtime}.

(** The reduce of the engine adds the amounts up, one after the other. *)
Lemma sumAmounts_totalAmount (l : list Transaction) :
  sumAmounts l = totalAmount l.
Proof.
  unfold sumAmounts, totalAmount. generalize (VNum 0).
  induction l as [|t l IH]; intros v; [reflexivity|].
  cbn [fold_left map addUp]. apply IH.
Qed.

(** Numbers and nulls add up to the sum of the Numbers. *)
Lemma addUp_numbers (amounts : list value) :
  Forall numberOrNull amounts ->
  forall x : float,
    addUp (VNum x) amounts
    = VNum (fold_left (fun sum y => (sum + y)%float) (map counted amounts) x).
Proof.
  induction 1 as [|a rest Ha _ IH]; intros x; [reflexivity|].
  cbn [addUp map fold_left].
  destruct a; try contradiction; cbn [js_add ToNumber counted]; apply IH.
Qed.

Lemma totalAmount_numbers (l : list Transaction) :
  Forall (fun t => numberOrNull (amount t)) l ->
  totalAmount l = VNum (sumOf (map (fun t => counted (amount t)) l)).
Proof.
  intros H. unfold totalAmount, sumOf.
  rewrite <- (map_map amount counted).
  apply addUp_numbers. apply Forall_map. exact H.
Qed.

(** Once a String, always a String. *)
Lemma addUp_text_stays (amounts : list value) :
  forall s : string, exists s' : string, addUp (VStr s) amounts = VStr s'.
Proof.
  induction amounts as [|a rest IH]; intros s; [eexists; reflexivity|].
  cbn [addUp js_add]. apply IH.
Qed.

Lemma addUp_text (amounts : list value) :
  Exists isText amounts ->
  forall sum : value, exists s : string, addUp sum amounts = VStr s.
Proof.
  induction 1 as [a rest [s ->]|a rest _ IH]; intros sum; cbn [addUp].
  - destruct sum; cbn [js_add]; apply addUp_text_stays.
  - apply IH.
Qed.

(** Once NaN, always NaN, as long as no String comes. *)
Lemma addUp_nan (amounts : list value) :
  Forall (fun a => ~ isText a) amounts ->
  addUp (VNum nan) amounts = VNum nan.
Proof.
  induction 1 as [|a rest Ha _ IH]; [reflexivity|]. cbn [addUp].
  destruct a as [| |x|s]; cbn [js_add ToNumber]; rewrite ?add_nan_l;
    try exact IH.
  exfalso. apply Ha. eexists; reflexivity.
Qed.

Lemma addUp_missing (amounts : list value) :
  Exists (fun a => a = VUndefined) amounts ->
  Forall (fun a => ~ isText a) amounts ->
  forall x : float, addUp (VNum x) amounts = VNum nan.
Proof.
  induction 1 as [a rest ->|a rest _ IH]; intros Hn x;
    apply Forall_cons_iff in Hn; destruct Hn as [Ha Hrest]; cbn [addUp].
  - cbn [js_add ToNumber]. rewrite add_nan_r. now apply addUp_nan.
  - destruct a as [| |y|s]; cbn [js_add ToNumber].
    + rewrite add_nan_r. now apply addUp_nan.
    + now apply IH.
    + now apply IH.
    + exfalso. apply Ha. eexists; reflexivity.
Qed.

End SumFacts.

Section BudgetFacts.

Context {rt : Runtime}.

(* ------------------------------------------------------------------ *)
(** *** Budgets *)

Lemma filter_none {A : Type} (f : A -> bool) (l : list A) :
  (forall x, In x l -> f x = false) -> filter f l = [].
Proof.
  induction l as [|a l IH]; intros H; [reflexivity|].
  cbn. rewrite (H a (or_introl eq_refl)). apply IH.
  intros x Hx. apply H. now right.
Qed.

(** C2: when no budget matches the month and the year, [analyzeBudgets]
    returns without failing an analysis whose counts and amounts are all
    zero; but it takes the early return, which creates no
    [budgetUtilization] property at all: that field is absent, not 0. *)
Theorem analyzeBudgets_no_match :
  forall (budgets : list Budget) (transactions : list Transaction) (m y : value),
    (forall b, In b budgets -> inPeriod m y b = false) ->
    analyzeBudgets budgets transactions m y = noBudgets
    /\ budgetUtilization (analyzeBudgets budgets transactions m y) = None.
Proof.
  intros budgets transactions m y H.
  assert (E : analyzeBudgets budgets transactions m y = noBudgets).
  { unfold analyzeBudgets.
    rewrite (filter_none (fun b => strict_eq (month b) m && strict_eq (year b) y))
      by exact H.
    reflexivity. }
  split; [exact E | now rewrite E].
Qed.

End BudgetFacts.

Lemma analyzeBudgets_no_match_witness :
  let budgets := [budget "Rent" 1000 5 2024] in
  let m := VNum 6 in
  let y := VNum 2024 in
  (forall b, In b budgets -> inPeriod m y b = false)
  /\ budgetUtilization (analyzeBudgets budgets [] m y) = None.
Proof.
  assert (H : forall b, In b [budget "Rent" 1000 5 2024] -> inPeriod (VNum 6) (VNum 2024) b = false).
  { intros b [<-|[]]. reflexivity. }
  split; [exact H|].
  exact (proj2 (analyzeBudgets_no_match [budget "Rent" 1000 5 2024] [] (VNum 6) (VNum 2024) H)).
Defined.

(* ------------------------------------------------------------------ *)
(** *** The health score *)

Section HealthFacts.

Context {rt : Runtime}.

(** The score is read back as an integer by [Num.truncate]. *)
Ltac score_case :=
  lazymatch goal with
  | |- exists n : Z, _ /\ ?r = _ =>
      let v := eval vm_compute in (Num.truncate r) in
      lazymatch v with
      | Some ?z => exists z; split; [lia | vm_compute; reflexivity]
      end
  end.

Lemma healthScore_integer (metrics : Metrics) :
  exists n : Z, 0 <= n <= 100 /\ calculateFinancialHealthScore metrics = Num.Z2F n.
Proof.
  unfold calculateFinancialHealthScore.
  destruct (trendDirection (m_spendingTrends metrics));
    repeat match goal with
           | |- context [if ?c then _ else _] => destruct c
           end;
    score_case.
Qed.

(** The score of a report is the score of the metrics gathered for it. *)
Lemma report_healthScore (transactions : list Transaction) (targets : list Target)
    (budgets : list Budget) (clock : Clock) :
  exists metrics,
    healthScore (fst (performFinancialAnalysis transactions targets budgets clock))
    = calculateFinancialHealthScore metrics.
Proof.
  unfold performFinancialAnalysis, bind, Date_now.
  destruct (analyzeTargets targets (fun n => clock (S n))) as [ta c'].
  cbn [ret fst healthScore]. eexists. reflexivity.
Qed.

(** C4 (as the code has it): whatever the transactions, targets and
    budgets hold (malformed amounts included) and whatever the clock
    reads, the health score of the report is an integer between 0 and 100;
    for three empty collections it is 35: 15 points for a monthly net
    income of 0, which is not below -1000, 15 points for no budget
    exceeded and 5 points for a stable trend. *)
Theorem healthScore_range :
  (forall (transactions : list Transaction) (targets : list Target)
          (budgets : list Budget) (clock : Clock),
      exists n : Z,
        0 <= n <= 100
        /\ healthScore (fst (performFinancialAnalysis transactions targets budgets clock))
           = Num.Z2F n)
  /\ (forall clock : Clock,
        healthScore (fst (performFinancialAnalysis [] [] [] clock)) = 35%float).
Proof.
  split.
  - intros transactions targets budgets clock.
    destruct (report_healthScore transactions targets budgets clock) as [metrics ->].
    apply healthScore_integer.
  - intros clock. reflexivity.
Qed.

End HealthFacts.

(** C4, as the specification words it, fails on three empty collections:
    the score is not 5. *)
Lemma healthScore_empty_not_5 :
  healthScore (fst (performFinancialAnalysis [] [] [] (at_time "2024-06-10"))) <> 5%float.
Proof. apply float_neq. vm_compute. discriminate. Qed.

(* ------------------------------------------------------------------ *)
(** *** One income transaction *)

Section ScenarioFacts.

Context {rt : Runtime}.

(** A single transaction spans one month, whatever its (valid) date. *)
Lemma calculateMonthlyAverage_single (t : Transaction) (tv : Z) :
  new_Date (date t) = Some tv ->
  calculateMonthlyAverage [t] = js_div (sumAmounts [t]) (VNum 1).
Proof.
  intros Hd. unfold calculateMonthlyAverage.
  cbn [List.length Nat.eqb map extreme_date fold_left].
  rewrite Hd. cbn [getFullYear getMonth option_map].
  replace ((YearFromTime (LocalTime tv) - YearFromTime (LocalTime tv)) * 12
           + (MonthFromTime (LocalTime tv) - MonthFromTime (LocalTime tv)) + 1)
    with 1 by lia.
  reflexivity.
Qed.

(** C3: a single income transaction of amount 1000 with a valid date, no
    target and no budget: total income 1000, total expenses 0, net income
    1000, savings rate 100 and health score 75, whatever the date, the
    category and the clock. *)
Theorem scenario_single_income :
  forall (d c : value) (tv : Z) (clock : Clock),
    new_Date d = Some tv ->
    let t := {| date := d; amount := VNum 1000; type := VStr "income"; category := c |} in
    let r := fst (performFinancialAnalysis [t] [] [] clock) in
    total (income r) = VNum 1000
    /\ total (expenses r) = VNum 0
    /\ net_total (netIncome r) = 1000%float
    /\ savingsRate r = 100%float
    /\ healthScore r = 75%float.
Proof.
  intros d c tv clock Hd t r.
  assert (Hm : calculateMonthlyAverage [t] = 1000%float).
  { rewrite (calculateMonthlyAverage_single t tv Hd). reflexivity. }
  assert (Ht : trendDirection (analyzeSpendingTrends [t]) = stable).
  { unfold analyzeSpendingTrends. cbn. reflexivity. }
  subst r. unfold performFinancialAnalysis, bind, Date_now.
  cbn [analyzeTargets filterM bind ret fst snd].
  unfold bind, ret. cbn [fst].
  change (ofType "income" [t]) with [t].
  change (ofType "expense" [t]) with (@nil Transaction).
  change (ofType "investment" [t]) with (@nil Transaction).
  cbn [income expenses netIncome savingsRate healthScore total net_total].
  repeat split; try reflexivity.
  unfold calculateFinancialHealthScore.
  cbn [m_savingsRate m_monthlyNetIncome m_targetAnalysis m_budgetAnalysis m_spendingTrends].
  rewrite Hm, Ht. reflexivity.
Qed.

End ScenarioFacts.

Lemma scenario_single_income_witness :
  new_Date (VStr "2024-01-15") = Some 1705276800000
  /\ healthScore
       (fst (performFinancialAnalysis
               [transaction "2024-01-15" 1000 "income" "Salary"] [] []
               (at_time "2024-06-10"))) = 75%float.
Proof.
  split; [reflexivity|].
  exact (proj2 (proj2 (proj2 (proj2
    (scenario_single_income (VStr "2024-01-15") (VStr "Salary") 1705276800000
       (at_time "2024-06-10") eq_refl))))).
Defined.

(* ------------------------------------------------------------------ *)
(** *** Targets *)

Lemma filterM_length {A : Type} (f : A -> IO bool) (l : list A) :
  forall c : Clock, (List.length (fst (filterM f l c)) <= List.length l)%nat.
Proof.
  induction l as [|x l IH]; intros c; [apply Nat.le_refl|].
  cbn [filterM]. unfold bind, ret.
  destruct (f x c) as [keep c']. specialize (IH c').
  destruct (filterM f l c') as [rest c'']. cbn [fst List.length] in *.
  destruct keep; cbn [List.length]; lia.
Qed.

Lemma analyzeTargets_counts {rt : Runtime} (l : list Target) (c : Clock) :
  let ta := fst (analyzeTargets l c) in
  totalTargets ta = len l
  /\ 0 <= completedTargets ta <= len l
  /\ 0 <= onTrackTargets ta <= len l
  /\ completedTargets ta + onTrackTargets ta + behindTargets ta = len l.
Proof.
  pose proof (filterM_length onTrack l c) as Hon.
  pose proof (filter_length_le
                (fun t => js_ge (currentAmount t) (target_amount t)) l) as Hco.
  unfold analyzeTargets, bind, ret.
  destruct (filterM onTrack l c) as [on c']. cbn [fst] in *.
  cbn [totalTargets completedTargets onTrackTargets behindTargets].
  unfold len. lia.
Qed.

(** C1, as far as the code goes, and where it stops: the three counts
    always add up to the number of targets, because the count of targets
    behind is what is left of it; but the on-track filter tests neither
    completion nor the presence of [target_date].  So a completed target
    is counted a second time as on track, which leaves -1 target behind;
    and a target whose [target_date] is null is dated at the epoch and
    counted on track. *)
Theorem analyzeTargets_counts_completed_on_track :
  (forall (rt : Runtime) (goals : list Target) (clock : Clock),
      let ta := fst (analyzeTargets goals clock) in
      0 <= completedTargets ta <= totalTargets ta
      /\ 0 <= onTrackTargets ta <= totalTargets ta
      /\ completedTargets ta + onTrackTargets ta + behindTargets ta = totalTargets ta)
  /\ (let ta := fst (analyzeTargets
                       [target 10000 10000 "2030-01-01" "2024-01-01 00:00:00"]
                       (at_time "2024-06-10")) in
      totalTargets ta = 1 /\ completedTargets ta = 1
      /\ onTrackTargets ta = 1 /\ behindTargets ta = -1)
  /\ (let undated := {| target_amount := VNum 10000; current_amount := VNum 2000;
                        target_date := VNull; created_at := VStr "2024-01-01 00:00:00" |} in
      let ta := fst (analyzeTargets [undated] (at_time "2024-06-10")) in
      completedTargets ta = 0 /\ onTrackTargets ta = 1 /\ behindTargets ta = 0).
Proof.
  split.
  - intros rt goals clock. cbv zeta.
    destruct (analyzeTargets_counts goals clock) as [E H]. rewrite E. exact H.
  - vm_compute. repeat split.
Qed.

(* ------------------------------------------------------------------ *)
(** *** The clock *)

Lemma agree_later (n : nat) (c1 c2 : Clock) :
  agree (S n) c1 c2 -> c1 0%nat = c2 0%nat /\ agree n (later c1) (later c2).
Proof.
  intros H. split.
  - apply H. lia.
  - intros i Hi. apply H. lia.
Qed.

Section ClockFacts.

Context {rt : Runtime}.

(** The on-track test of a target reads the clock once. *)
Lemma onTrack_reads_once (t : Target) (c : Clock) :
  snd (onTrack t c) = later c
  /\ forall c' : Clock, c 0%nat = c' 0%nat -> fst (onTrack t c) = fst (onTrack t c').
Proof.
  split; [reflexivity|].
  intros c' H. unfold onTrack, bind, Date_now, ret. cbn [fst]. now rewrite H.
Qed.

Lemma filterM_onTrack_agree (l : list Target) :
  forall c1 c2 : Clock,
    agree (List.length l) c1 c2 ->
    fst (filterM onTrack l c1) = fst (filterM onTrack l c2).
Proof.
  induction l as [|t l IH]; intros c1 c2 H; [reflexivity|].
  apply agree_later in H. destruct H as [H0 H].
  cbn [filterM]. unfold bind.
  destruct (onTrack_reads_once t c1) as [S1 F1].
  destruct (onTrack_reads_once t c2) as [S2 _].
  specialize (F1 c2 H0).
  destruct (onTrack t c1) as [k1 d1], (onTrack t c2) as [k2 d2].
  cbn [fst snd] in *. subst d1 d2 k2.
  specialize (IH _ _ H).
  destruct (filterM onTrack l (later c1)) as [r1 e1],
           (filterM onTrack l (later c2)) as [r2 e2].
  cbn [fst] in *. now subst r2.
Qed.

Lemma analyzeTargets_agree (l : list Target) (c1 c2 : Clock) :
  agree (List.length l) c1 c2 ->
  fst (analyzeTargets l c1) = fst (analyzeTargets l c2).
Proof.
  intros H. apply filterM_onTrack_agree in H.
  unfold analyzeTargets, bind.
  destruct (filterM onTrack l c1) as [r1 e1], (filterM onTrack l c2) as [r2 e2].
  cbn [fst] in *. now subst r2.
Qed.

Lemma filterM_onTrack_clock (l : list Target) :
  forall (c : Clock) (i : nat),
    snd (filterM onTrack l c) i = c (List.length l + i)%nat.
Proof.
  induction l as [|t l IH]; intros c i; [reflexivity|].
  cbn [filterM]. unfold bind.
  destruct (onTrack_reads_once t c) as [S1 _].
  destruct (onTrack t c) as [k d]. cbn [snd] in S1. subst d.
  specialize (IH (later c) i).
  destruct (filterM onTrack l (later c)) as [r e]. unfold ret. cbn [snd] in *.
  rewrite IH. unfold later. f_equal.
Qed.

Lemma analyzeTargets_clock (l : list Target) (c : Clock) (i : nat) :
  snd (analyzeTargets l c) i = c (List.length l + i)%nat.
Proof.
  pose proof (filterM_onTrack_clock l c i) as H.
  unfold analyzeTargets, bind.
  destruct (filterM onTrack l c) as [r e]. unfold ret. exact H.
Qed.

(** C9 (as the code has it): the engine takes no current date; it reads
    the system clock, once in [performFinancialAnalysis] and once for
    every target in [analyzeTargets], and leaves the later readings to
    come.  The report is a function of the three collections and of these
    readings alone: two invocations on the same collections whose clocks
    give the same first [1 + targets.length] readings return the same
    report. *)
Theorem performFinancialAnalysis_deterministic :
  forall (transactions : list Transaction) (targets : list Target)
         (budgets : list Budget) (c1 c2 : Clock),
    agree (S (List.length targets)) c1 c2 ->
    fst (performFinancialAnalysis transactions targets budgets c1)
    = fst (performFinancialAnalysis transactions targets budgets c2)
    /\ forall i : nat,
         snd (performFinancialAnalysis transactions targets budgets c1) i
         = c1 (S (List.length targets) + i)%nat.
Proof.
  intros transactions targets budgets c1 c2 H.
  apply agree_later in H. destruct H as [H0 H].
  apply analyzeTargets_agree in H.
  pose proof (analyzeTargets_clock targets (later c1)) as Hc.
  unfold performFinancialAnalysis, bind, Date_now.
  fold (later c1). fold (later c2).
  destruct (analyzeTargets targets (later c1)) as [r1 e1],
           (analyzeTargets targets (later c2)) as [r2 e2].
  cbn [fst snd] in *. subst r2. rewrite H0. split; [reflexivity|].
  intros i. rewrite Hc. unfold later. f_equal.
Qed.

End ClockFacts.

Lemma performFinancialAnalysis_deterministic_witness :
  let goals := [target 10000 4000 "2025-01-01" "2024-01-01 00:00:00"] in
  agree 2 (at_time "2024-06-10") (drifting "2024-06-10")
  /\ fst (performFinancialAnalysis [] goals [] (at_time "2024-06-10"))
     = fst (performFinancialAnalysis [] goals [] (drifting "2024-06-10")).
Proof.
  assert (H : agree 2 (at_time "2024-06-10") (drifting "2024-06-10")).
  { intros i Hi. unfold drifting.
    destruct (Nat.ltb_spec i 2) as [_|Hge]; [reflexivity | lia]. }
  split; [exact H|].
  exact (proj1 (performFinancialAnalysis_deterministic []
                  [target 10000 4000 "2025-01-01" "2024-01-01 00:00:00"] []
                  (at_time "2024-06-10") (drifting "2024-06-10") H)).
Defined.

(** C9, as the specification words it, fails: the same collections,
    analysed when the system clock reads 10 June and when it reads
    1 December, give two different reports (the target is on track in
    June and behind in December). *)
Lemma report_depends_on_clock :
  let goals := [target 10000 4000 "2025-01-01" "2024-01-01 00:00:00"] in
  fst (performFinancialAnalysis [] goals [] (at_time "2024-06-10"))
  <> fst (performFinancialAnalysis [] goals [] (at_time "2024-12-01")).
Proof.
  intros goals H.
  apply (f_equal (fun r => onTrackTargets (targets r))) in H.
  vm_compute in H. discriminate.
Qed.

(* ------------------------------------------------------------------ *)
(** *** The period of a report *)

Lemma last_default {A : Type} (d d' : A) (l : list A) :
  l <> [] -> last l d = last l d'.
Proof.
  induction l as [|a l IH]; intros H; [contradiction|].
  destruct l as [|b l]; [reflexivity|].
  cbn [last] in *. apply IH. discriminate.
Qed.

Lemma final_last {A : Type} (x : A) (l : list A) :
  final (x :: l) = Some (last (x :: l) x).
Proof.
  unfold final. cbn [List.length]. rewrite Nat.sub_succ, Nat.sub_0_r.
  revert x. induction l as [|y l IH]; intros x; [reflexivity|].
  cbn [List.length nth_error]. rewrite IH.
  f_equal. change (last (x :: y :: l) x) with (last (y :: l) x).
  apply last_default. discriminate.
Qed.

Lemma descending_bounds (t0 : Z) (rest : list Z) :
  descending (t0 :: rest) ->
  forall x, In x (t0 :: rest) -> last (t0 :: rest) t0 <= x <= t0.
Proof.
  revert t0. induction rest as [|t1 rest IH]; intros t0 H x Hx.
  - destruct Hx as [<-|[]]. cbn. lia.
  - apply StronglySorted_inv in H. destruct H as [Hs Hall].
    change (last (t0 :: t1 :: rest) t0) with (last (t1 :: rest) t0).
    rewrite (last_default t0 t1) by discriminate.
    assert (Hlast : last (t1 :: rest) t1 <= t1 <= t1)
      by (apply (IH t1 Hs); now left).
    assert (H10 : t1 <= t0)
      by (rewrite Forall_forall in Hall; apply Hall; now left).
    destruct Hx as [<-|Hx]; [lia|].
    specialize (IH t1 Hs x Hx). lia.
Qed.

Lemma last_map {A B : Type} (f : A -> B) (l : list A) (d : A) :
  last (map f l) (f d) = f (last l d).
Proof.
  induction l as [|a l IH]; [reflexivity|].
  cbn [map]. destruct l as [|b l]; [reflexivity|].
  cbn [map last] in *. exact IH.
Qed.

Section PeriodFacts.

Context {rt : Runtime}.

Lemma period_of_report (transactions : list Transaction) (targets : list Target)
    (budgets : list Budget) (clock : Clock) :
  period (fst (performFinancialAnalysis transactions targets budgets clock))
  = {| startDate := dateAt final transactions;
       endDate := dateAt first transactions;
       totalTransactions := len transactions |}.
Proof.
  unfold performFinancialAnalysis, bind, Date_now.
  destruct (analyzeTargets targets (fun n => clock (S n))) as [ta c'].
  reflexivity.
Qed.

Lemma dateAt_nonempty (t0 : Transaction) (rest : list Transaction) :
  dateAt final (t0 :: rest) = date (last (t0 :: rest) t0)
  /\ dateAt first (t0 :: rest) = date t0.
Proof.
  unfold dateAt.
  assert (H : (0 <? len (t0 :: rest)) = true).
  { apply Z.ltb_lt. unfold len. cbn [List.length]. lia. }
  rewrite H, final_last. split; reflexivity.
Qed.

End PeriodFacts.

(** C10 (as the code has it): [period.startDate] is the date field of the
    last transaction of the array and [period.endDate] that of the first
    one, both null for an empty array.  Whenever the array is sorted
    latest first (as the query behind [getUserTransactions] orders it),
    these are the earliest and the latest date of the array; for another
    order they need not be: read in ascending order, the start date is
    the latest date. *)
Theorem period_is_last_and_first :
  (forall (rt : Runtime) (targets : list Target) (budgets : list Budget) (clock : Clock),
      (let p := period (fst (performFinancialAnalysis [] targets budgets clock)) in
       startDate p = VNull /\ endDate p = VNull)
      /\ forall (t0 : Transaction) (rest : list Transaction),
           let p := period (fst (performFinancialAnalysis (t0 :: rest) targets budgets clock)) in
           startDate p = date (last (t0 :: rest) t0) /\ endDate p = date t0)
  /\ (forall (rt : Runtime) (transactions : list Transaction) (targets : list Target)
             (budgets : list Budget) (clock : Clock) (times : list Z),
         transactions <> [] ->
         map timeOf transactions = map Some times ->
         descending times ->
         let p := period (fst (performFinancialAnalysis transactions targets budgets clock)) in
         exists s e : Z,
           new_Date (startDate p) = Some s /\ new_Date (endDate p) = Some e
           /\ In s times /\ In e times
           /\ forall x, In x times -> s <= x <= e)
  /\ (let p := period (fst (performFinancialAnalysis
                              [transaction "2024-01-15" 500 "expense" "Food";
                               transaction "2024-02-15" 800 "expense" "Food"]
                              [] [] (at_time "2024-06-10"))) in
      new_Date (startDate p) = Some 1707955200000
      /\ new_Date (endDate p) = Some 1705276800000).
Proof.
  split; [|split].
  - intros rt targets budgets clock. split.
    + rewrite period_of_report. split; reflexivity.
    + intros t0 rest. cbv zeta. rewrite period_of_report.
      cbn [startDate endDate]. apply dateAt_nonempty.
  - intros rt transactions targets budgets clock times Hne Hmap Hdesc.
    cbv zeta. rewrite period_of_report. cbn [startDate endDate].
    destruct transactions as [|t0 rest]; [contradiction|].
    destruct times as [|x0 xs]; [discriminate|].
    destruct (dateAt_nonempty t0 rest) as [-> ->].
    exists (last (x0 :: xs) x0), x0.
    assert (H0 : timeOf t0 = Some x0) by (cbn [map] in Hmap; congruence).
    assert (Hl : timeOf (last (t0 :: rest) t0) = Some (last (x0 :: xs) x0)).
    { rewrite <- (last_map timeOf), <- (last_map Some), Hmap, H0. reflexivity. }
    repeat split.
    + exact Hl.
    + exact H0.
    + destruct (exists_last (l := x0 :: xs)) as [l' [a E]]; [discriminate|].
      rewrite E, last_last. apply in_or_app. right. now left.
    + now left.
    + apply (descending_bounds x0 xs Hdesc x H).
    + apply (descending_bounds x0 xs Hdesc x H).
  - vm_compute. split; reflexivity.
Qed.

Lemma period_is_last_and_first_witness :
  let transactions := [transaction "2024-02-15" 800 "expense" "Food";
                       transaction "2024-01-15" 500 "expense" "Food"] in
  let times := [1707955200000; 1705276800000] in
  transactions <> []
  /\ map timeOf transactions = map Some times
  /\ descending times
  /\ exists s e : Z,
       new_Date (startDate (period (fst (performFinancialAnalysis transactions [] []
                                           (at_time "2024-06-10"))))) = Some s
       /\ new_Date (endDate (period (fst (performFinancialAnalysis transactions [] []
                                            (at_time "2024-06-10"))))) = Some e
       /\ In s times /\ In e times
       /\ forall x, In x times -> s <= x <= e.
Proof.
  assert (Hne : [transaction "2024-02-15" 800 "expense" "Food";
                 transaction "2024-01-15" 500 "expense" "Food"] <> [])
    by discriminate.
  assert (Hd : descending [1707955200000; 1705276800000]).
  { repeat constructor. lia. }
  split; [exact Hne|]. split; [reflexivity|]. split; [exact Hd|].
  exact (proj1 (proj2 period_is_last_and_first) runtime
           [transaction "2024-02-15" 800 "expense" "Food";
            transaction "2024-01-15" 500 "expense" "Food"] [] []
           (at_time "2024-06-10") [1707955200000; 1705276800000]
           Hne eq_refl Hd).
Defined.

(** C10, as the claim words it, fails: the dates of the period are the
    earliest and the latest one not only when the array is sorted latest
    first.  Here the two transactions in the middle are out of order. *)
Lemma period_right_without_order :
  let transactions := [transaction "2024-04-15" 10 "expense" "Food";
                       transaction "2024-02-15" 20 "expense" "Food";
                       transaction "2024-03-15" 30 "expense" "Food";
                       transaction "2024-01-15" 40 "expense" "Food"] in
  let times := [1713139200000; 1707955200000; 1710460800000; 1705276800000] in
  let p := period (fst (performFinancialAnalysis transactions [] []
                          (at_time "2024-06-10"))) in
  map timeOf transactions = map Some times
  /\ ~ descending times
  /\ new_Date (startDate p) = Some 1705276800000
  /\ new_Date (endDate p) = Some 1713139200000
  /\ forall x, In x times -> 1705276800000 <= x <= 1713139200000.
Proof.
  cbv zeta. split; [reflexivity|]. split.
  - intros H. apply StronglySorted_inv in H. destruct H as [H _].
    apply StronglySorted_inv in H. destruct H as [_ H].
    apply Forall_inv in H. lia.
  - split; [reflexivity|]. split; [reflexivity|].
    intros x [<-|[<-|[<-|[<-|[]]]]]; lia.
Qed.

(* ------------------------------------------------------------------ *)
(** *** Budget against actual spending *)

Section SpendingFacts.

Context {rt : Runtime}.


Lemma fold_left_ext {A B : Type} (f g : A -> B -> A) (l : list B) :
  (forall a b, f a b = g a b) -> forall a, fold_left f l a = fold_left g l a.
Proof.
  intros H. induction l as [|b l IH]; intros a; [reflexivity|].
  cbn [fold_left]. now rewrite H, IH.
Qed.



End SpendingFacts.



(** Rent budgeted at 1000 and 1200 spent: 1000 counts in the total, and
    the budget is exceeded. *)
Example analyzeBudgets_rent :
  let a := analyzeBudgets [budget "Rent" 1000 6 2024]
             [transaction "2024-06-01" 1200 "expense" "Rent"] (VNum 6) (VNum 2024) in
  totalSpent a = 1000%float /\ overBudget a = 1 /\ underBudget a = 0.
Proof. vm_compute. repeat split. Qed.

(* ------------------------------------------------------------------ *)
(** *** The monthly average *)

Lemma fold_left_min_spec (rest : list Z) :
  forall a : Z,
    In (fold_left Z.min rest a) (a :: rest)
    /\ forall x, In x (a :: rest) -> fold_left Z.min rest a <= x.
Proof.
  induction rest as [|b rest IH]; intros a; cbn [fold_left].
  - split; [now left|]. intros x [<-|[]]. lia.
  - destruct (IH (Z.min a b)) as [Hin Hle]. split.
    + destruct Hin as [E|Hin]; [|right; now right].
      rewrite <- E. destruct (Z.min_spec a b) as [[_ ->]|[_ ->]];
        [now left | right; now left].
    + intros x [<-|[<-|Hx]].
      * specialize (Hle (Z.min a b) (or_introl eq_refl)). lia.
      * specialize (Hle (Z.min a b) (or_introl eq_refl)). lia.
      * apply Hle. now right.
Qed.

Lemma fold_left_max_spec (rest : list Z) :
  forall a : Z,
    In (fold_left Z.max rest a) (a :: rest)
    /\ forall x, In x (a :: rest) -> x <= fold_left Z.max rest a.
Proof.
  induction rest as [|b rest IH]; intros a; cbn [fold_left].
  - split; [now left|]. intros x [<-|[]]. lia.
  - destruct (IH (Z.max a b)) as [Hin Hle]. split.
    + destruct Hin as [E|Hin]; [|right; now right].
      rewrite <- E. destruct (Z.max_spec a b) as [[_ ->]|[_ ->]];
        [right; now left | now left].
    + intros x [<-|[<-|Hx]].
      * specialize (Hle (Z.max a b) (or_introl eq_refl)). lia.
      * specialize (Hle (Z.max a b) (or_introl eq_refl)). lia.
      * apply Hle. now right.
Qed.

Lemma extreme_date_valid (pick : Z -> Z -> Z) (a : Z) (rest : list Z) :
  extreme_date pick (map Some (a :: rest)) = Some (fold_left pick rest a).
Proof.
  cbn [map extreme_date]. revert a.
  induction rest as [|b rest IH]; intros a; [reflexivity|].
  cbn [map fold_left]. apply IH.
Qed.

Lemma fold_invalid (pick : Z -> Z -> Z) (l : list Date) :
  fold_left (fun acc d' => match acc, d' with
                           | Some a, Some b => Some (pick a b)
                           | _, _ => None
                           end) l None = None.
Proof. induction l as [|d l IH]; [reflexivity | exact IH]. Qed.

Lemma extreme_date_invalid (pick : Z -> Z -> Z) (dates : list Date) :
  In None dates -> extreme_date pick dates = None.
Proof.
  destruct dates as [|d rest]; [intros []|].
  cbn [extreme_date]. revert d.
  induction rest as [|d' rest IH]; intros d H.
  - destruct H as [->|[]]. reflexivity.
  - cbn [fold_left]. destruct H as [->|H]; [apply fold_invalid|].
    destruct d as [a|]; [|apply fold_invalid].
    destruct d' as [b|]; [|apply fold_invalid].
    apply IH. destruct H as [H|H]; [discriminate | now right].
Qed.

(** The dates of a list are all valid, or one of them is not. *)
Lemma valid_or_invalid (dates : list Date) :
  (exists times : list Z, dates = map Some times) \/ In None dates.
Proof.
  induction dates as [|d dates [[times ->]|IH]].
  - left. now exists [].
  - destruct d as [t|]; [left; now exists (t :: times) | right; now left].
  - right. now right.
Qed.

(* ------------------------------------------------------------------ *)
(** *** Months follow time *)

Lemma yearOfEra_bounds (doe : Z) :
  0 <= doe <= 146096 -> 0 <= yearOfEra doe <= 399.
Proof. intros H. unfold yearOfEra. Z.div_mod_to_equations. lia. Qed.

Lemma dayOfYear_bounds (doe : Z) :
  0 <= doe <= 146096 -> 0 <= dayOfYear doe <= 365.
Proof. intros H. unfold dayOfYear, yearOfEra. Z.div_mod_to_equations. lia. Qed.

Lemma yearOfEra_mono (a b : Z) :
  0 <= a <= b -> b <= 146096 -> yearOfEra a <= yearOfEra b.
Proof.
  intros H H'. unfold yearOfEra. apply Z.div_le_mono; [lia|].
  Z.div_mod_to_equations. lia.
Qed.

Lemma monthOfEra_bounds (doe : Z) :
  0 <= doe <= 146096 -> 0 <= monthOfEra doe <= 4799.
Proof.
  intros H. unfold monthOfEra.
  pose proof (yearOfEra_bounds doe H). pose proof (dayOfYear_bounds doe H).
  assert (0 <= (5 * dayOfYear doe + 2) / 153 <= 11)
    by (Z.div_mod_to_equations; lia).
  lia.
Qed.

Lemma monthOfEra_mono (a b : Z) :
  0 <= a <= b -> b <= 146096 -> monthOfEra a <= monthOfEra b.
Proof.
  intros H H'. unfold monthOfEra.
  pose proof (yearOfEra_mono a b H H') as Hy.
  pose proof (dayOfYear_bounds a ltac:(lia)) as Ha.
  pose proof (dayOfYear_bounds b ltac:(lia)) as Hb.
  assert (Hma : 0 <= (5 * dayOfYear a + 2) / 153 <= 11)
    by (Z.div_mod_to_equations; lia).
  assert (Hmb : 0 <= (5 * dayOfYear b + 2) / 153 <= 11)
    by (Z.div_mod_to_equations; lia).
  destruct (Z.eq_dec (yearOfEra a) (yearOfEra b)) as [E|Hne]; [|lia].
  assert (Hd : dayOfYear a <= dayOfYear b) by (unfold dayOfYear; rewrite E; lia).
  assert ((5 * dayOfYear a + 2) / 153 <= (5 * dayOfYear b + 2) / 153)
    by (apply Z.div_le_mono; lia).
  lia.
Qed.

Lemma civil_month_index (days : Z) :
  let '(y, m, _) := civil_from_days days in
  12 * y + m
  = 4800 * ((days + 719468) / 146097) + monthOfEra ((days + 719468) mod 146097) + 3.
Proof.
  pose proof (Z.mod_pos_bound (days + 719468) 146097 ltac:(lia)) as Hdoe.
  pose proof (dayOfYear_bounds ((days + 719468) mod 146097) ltac:(lia)) as Hdoy.
  unfold civil_from_days. cbv zeta.
  rewrite <- (Z.mul_comm 146097), <- Z.mod_eq by lia.
  fold (yearOfEra ((days + 719468) mod 146097)).
  fold (dayOfYear ((days + 719468) mod 146097)).
  unfold monthOfEra.
  set (mp := (5 * dayOfYear ((days + 719468) mod 146097) + 2) / 153).
  assert (Hmp : 0 <= mp <= 11) by (subst mp; Z.div_mod_to_equations; lia).
  destruct (Z.ltb_spec mp 10) as [H|H].
  - destruct (Z.leb_spec (mp + 3) 2) as [H'|H']; lia.
  - destruct (Z.leb_spec (mp - 9) 2) as [H'|H']; lia.
Qed.

Lemma monthIndex_mono (t1 t2 : Z) : t1 <= t2 -> monthIndex t1 <= monthIndex t2.
Proof.
  intros H. unfold monthIndex, YearFromTime, MonthFromTime.
  assert (Hd : t1 / msPerDay <= t2 / msPerDay)
    by (apply Z.div_le_mono; [reflexivity | exact H]).
  pose proof (civil_month_index (t1 / msPerDay)) as E1.
  pose proof (civil_month_index (t2 / msPerDay)) as E2.
  destruct (civil_from_days (t1 / msPerDay)) as [[y1 m1] d1].
  destruct (civil_from_days (t2 / msPerDay)) as [[y2 m2] d2].
  set (z1 := t1 / msPerDay + 719468) in *.
  set (z2 := t2 / msPerDay + 719468) in *.
  assert (Hz : z1 <= z2) by (subst z1 z2; lia).
  pose proof (Z.mod_pos_bound z1 146097 ltac:(lia)) as B1.
  pose proof (Z.mod_pos_bound z2 146097 ltac:(lia)) as B2.
  pose proof (monthOfEra_bounds (z1 mod 146097) ltac:(lia)) as M1.
  pose proof (monthOfEra_bounds (z2 mod 146097) ltac:(lia)) as M2.
  assert (He : z1 / 146097 <= z2 / 146097) by (apply Z.div_le_mono; lia).
  destruct (Z.eq_dec (z1 / 146097) (z2 / 146097)) as [E|Hne]; [|lia].
  assert (Hm : z1 mod 146097 <= z2 mod 146097).
  { rewrite !Z.mod_eq by lia. rewrite E. lia. }
  pose proof (monthOfEra_mono _ _ (conj (proj1 B1) Hm) ltac:(lia)). lia.
Qed.

Section AverageFacts.

Context {rt : Runtime}.

(** The monthly average of transactions whose dates are valid. *)
Lemma calculateMonthlyAverage_valid (transactions : list Transaction) (times : list Z) :
  transactions <> [] ->
  map timeOf transactions = map Some times ->
  exists earliest latest : Z,
    In earliest times /\ In latest times
    /\ (forall x, In x times -> earliest <= x <= latest)
    /\ calculateMonthlyAverage transactions
       = (ToNumber (totalAmount transactions)
          / Num.Z2F (monthsSpanned earliest latest))%float
    /\ ((forall a b, a <= b -> LocalTime a <= LocalTime b) ->
        1 <= monthsSpanned earliest latest).
Proof.
  intros Hne Hmap.
  destruct transactions as [|t0 ts]; [contradiction|].
  destruct times as [|a rest]; [discriminate|].
  destruct (fold_left_min_spec rest a) as [Hmin_in Hmin].
  destruct (fold_left_max_spec rest a) as [Hmax_in Hmax].
  exists (fold_left Z.min rest a), (fold_left Z.max rest a).
  repeat split; auto.
  - unfold calculateMonthlyAverage.
    cbn [List.length Nat.eqb].
    change (map (fun t => new_Date (date t)) (t0 :: ts)) with (map timeOf (t0 :: ts)).
    rewrite Hmap, !extreme_date_valid, sumAmounts_totalAmount.
    reflexivity.
  - intros Hlocal.
    assert (Hle : fold_left Z.min rest a <= fold_left Z.max rest a)
      by (apply Hmax, Hmin_in).
    pose proof (monthIndex_mono _ _ (Hlocal _ _ Hle)) as Hm.
    unfold monthIndex in Hm. unfold monthsSpanned. lia.
Qed.

(** The monthly average of transactions one of whose dates is not valid. *)
Lemma calculateMonthlyAverage_invalid (transactions : list Transaction) :
  In None (map timeOf transactions) ->
  calculateMonthlyAverage transactions = nan.
Proof.
  intros Hin. unfold calculateMonthlyAverage.
  destruct transactions as [|t0 l0]; [destruct Hin|].
  cbn [List.length Nat.eqb].
  change (map (fun t => new_Date (date t)) (t0 :: l0)) with (map timeOf (t0 :: l0)).
  rewrite !(extreme_date_invalid _ _ Hin).
  cbn [getFullYear getMonth option_map int_num].
  unfold js_div. cbn [ToNumber]. apply div_nan.
Qed.

End AverageFacts.

(** C8 (as the code has it): the monthly average of no transaction is 0,
    returned before any division.  The monthly average of transactions
    whose dates are all valid is their total amount, read as a Number,
    divided by the number of calendar months from the month of the
    earliest date to the month of the latest date, both included; where
    local time never runs backwards this number is at least 1, so that
    the division is not by zero.  The total amount is the sum of the
    amounts when these are Numbers or null.  As soon as one date is not
    valid, the monthly average is NaN; and every list is of one kind or
    the other.  So 900 and 600 earned from November to March are 300 a
    month. *)
Theorem calculateMonthlyAverage_spans_months :
  (forall rt : Runtime, calculateMonthlyAverage [] = 0%float)
  /\ (forall (rt : Runtime) (transactions : list Transaction) (times : list Z),
         transactions <> [] ->
         map timeOf transactions = map Some times ->
         exists earliest latest : Z,
           In earliest times /\ In latest times
           /\ (forall x, In x times -> earliest <= x <= latest)
           /\ calculateMonthlyAverage transactions
              = (ToNumber (totalAmount transactions)
                 / Num.Z2F (monthsSpanned earliest latest))%float
           /\ ((forall a b, a <= b -> LocalTime a <= LocalTime b) ->
               1 <= monthsSpanned earliest latest))
  /\ (forall (rt : Runtime) (transactions : list Transaction),
         Forall (fun t => numberOrNull (amount t)) transactions ->
         totalAmount transactions
         = VNum (sumOf (map (fun t => counted (amount t)) transactions)))
  /\ (forall (rt : Runtime) (transactions : list Transaction),
         In None (map timeOf transactions) ->
         calculateMonthlyAverage transactions = nan)
  /\ (forall (rt : Runtime) (transactions : list Transaction),
         (exists times : list Z, map timeOf transactions = map Some times)
         \/ In None (map timeOf transactions))
  /\ (let transactions := [transaction "2024-03-20" 900 "income" "Salary";
                           transaction "2023-11-05" 600 "income" "Salary"] in
      totalAmount transactions = VNum 1500
      /\ monthsSpanned 1699142400000 1710892800000 = 5
      /\ calculateMonthlyAverage transactions = 300%float).
Proof.
  split; [reflexivity|].
  split; [intros rt; apply calculateMonthlyAverage_valid|].
  split; [intros rt; apply totalAmount_numbers|].
  split; [intros rt; apply calculateMonthlyAverage_invalid|].
  split; [intros rt transactions; apply valid_or_invalid|].
  vm_compute. repeat split.
Qed.

Lemma calculateMonthlyAverage_spans_months_witness :
  let transactions := [transaction "2024-03-20" 900 "income" "Salary";
                       transaction "2023-11-05" 600 "income" "Salary"] in
  let times := [1710892800000; 1699142400000] in
  let undatable := [transaction "2024-03-20" 900 "income" "Salary";
                    transaction "tomorrow" 600 "income" "Salary"] in
  (transactions <> []
   /\ map timeOf transactions = map Some times
   /\ monthsSpanned 1699142400000 1710892800000 = 5
   /\ exists earliest latest : Z,
        In earliest times /\ In latest times
        /\ (forall x, In x times -> earliest <= x <= latest)
        /\ calculateMonthlyAverage transactions
           = (ToNumber (totalAmount transactions)
              / Num.Z2F (monthsSpanned earliest latest))%float
        /\ ((forall a b, a <= b -> LocalTime a <= LocalTime b) ->
            1 <= monthsSpanned earliest latest))
  /\ (Forall (fun t => numberOrNull (amount t)) transactions
      /\ sumOf (map (fun t => counted (amount t)) transactions) = 1500%float
      /\ totalAmount transactions
         = VNum (sumOf (map (fun t => counted (amount t)) transactions)))
  /\ (In None (map timeOf undatable)
      /\ calculateMonthlyAverage undatable = nan).
Proof.
  intros transactions times undatable.
  assert (Hne : transactions <> []) by discriminate.
  assert (Hmap : map timeOf transactions = map Some times) by reflexivity.
  assert (Hnum : Forall (fun t => numberOrNull (amount t)) transactions)
    by (repeat constructor).
  assert (Hin : In None (map timeOf undatable)) by (right; left; reflexivity).
  split; [split; [exact Hne | split; [exact Hmap | split; [reflexivity|]]]|].
  - exact (proj1 (proj2 calculateMonthlyAverage_spans_months) runtime
             transactions times Hne Hmap).
  - split; [split; [exact Hnum | split; [vm_compute; reflexivity|]]|].
    + exact (proj1 (proj2 (proj2 calculateMonthlyAverage_spans_months)) runtime
               transactions Hnum).
    + split; [exact Hin|].
      exact (proj1 (proj2 (proj2 (proj2 calculateMonthlyAverage_spans_months))) runtime
               undatable Hin).
Defined.

(** C8, as the specification words it, fails for a list in which a date
    cannot be read: 100 dated 15 January and 50 dated last week are 150
    in all, within a month or more; their monthly average is NaN. *)
Lemma unreadable_date_average_is_nan :
  let salary := transaction "2024-01-15" 100 "income" "Salary" in
  let gift := transaction "last week" 50 "income" "Gift" in
  sumAmounts [salary; gift] = VNum 150
  /\ timeOf gift = None
  /\ calculateMonthlyAverage [salary] = 100%float
  /\ calculateMonthlyAverage [salary; gift] = nan.
Proof. vm_compute. repeat split. Qed.

(** The local time of the UTC runtime never runs backwards. *)
Example utc_local_time (a b : Z) : a <= b -> LocalTime a <= LocalTime b.
Proof. unfold LocalTime. cbn. lia. Qed.

(** 1500 earned from November to March: 300 a month. *)
Example calculateMonthlyAverage_five_months :
  calculateMonthlyAverage
    [transaction "2024-03-20" 900 "income" "Salary";
     transaction "2023-11-05" 600 "income" "Salary"] = 300%float.
Proof. reflexivity. Qed.

(* ------------------------------------------------------------------ *)
(** *** The order of the month keys *)

Lemma leb_cases (a b : string) :
  String.leb a b = true <-> a = b \/ String_as_OT.lt a b.
Proof.
  unfold String.leb. destruct (String.compare a b) eqn:E.
  - apply String_as_OT.cmp_eq in E. tauto.
  - apply String_as_OT.cmp_lt in E. tauto.
  - split; [discriminate|]. intros [H|H].
    + apply String_as_OT.cmp_eq in H. unfold String_as_OT.cmp in H. congruence.
    + apply String_as_OT.cmp_lt in H. unfold String_as_OT.cmp in H. congruence.
Qed.

Lemma leb_refl (a : string) : String.leb a a = true.
Proof. apply leb_cases. now left. Qed.

Lemma leb_trans (a b c : string) :
  String.leb a b = true -> String.leb b c = true -> String.leb a c = true.
Proof.
  rewrite !leb_cases. intros [->|H1] [->|H2]; auto.
  right. eapply String_as_OT.lt_trans; eassumption.
Qed.

Lemma ltb_leb (a b : string) : String.ltb a b = true -> String.leb a b = true.
Proof.
  unfold String.ltb, String.leb. now destruct (String.compare a b).
Qed.

Lemma not_ltb_leb (a b : string) : String.ltb a b = false -> String.leb b a = true.
Proof.
  unfold String.ltb, String.leb. rewrite (String.compare_antisym b a).
  now destruct (String.compare a b).
Qed.

Lemma insert_sorted_perm {A : Type} (before : A -> A -> bool) (x : A) (l : list A) :
  Permutation (x :: l) (insert_sorted before x l).
Proof.
  induction l as [|y l IH]; [reflexivity|].
  cbn [insert_sorted]. destruct (before x y); [reflexivity|].
  rewrite perm_swap. now apply perm_skip.
Qed.

Lemma Array_sort_perm {A : Type} (before : A -> A -> bool) (l : list A) :
  Permutation l (Array_sort before l).
Proof.
  unfold Array_sort.
  assert (H : forall acc, Permutation (l ++ acc) (fold_left (fun a x => insert_sorted before x a) l acc)).
  { induction l as [|x l IH]; intros acc; [reflexivity|].
    cbn [fold_left app]. rewrite <- IH.
    rewrite <- insert_sorted_perm. apply Permutation_middle. }
  specialize (H []). now rewrite app_nil_r in H.
Qed.

Lemma insert_sorted_increasing (x : string) (l : list string) :
  increasingKeys l -> increasingKeys (insert_sorted String.ltb x l).
Proof.
  unfold increasingKeys. induction l as [|y l IH]; intros H.
  - cbn. repeat constructor.
  - cbn [insert_sorted]. apply StronglySorted_inv in H. destruct H as [Hs Hall].
    destruct (String.ltb x y) eqn:E.
    + constructor; [now constructor|].
      apply ltb_leb in E. constructor; [exact E|].
      rewrite Forall_forall in *. intros z Hz. eapply leb_trans; eauto.
    + constructor; [now apply IH|].
      rewrite Forall_forall in *. intros z Hz.
      apply (Permutation_in z (Permutation_sym (insert_sorted_perm String.ltb x l))) in Hz.
      destruct Hz as [<-|Hz]; [now apply not_ltb_leb | now apply Hall].
Qed.

Lemma Array_sort_increasing (l : list string) :
  increasingKeys (Array_sort String.ltb l).
Proof.
  unfold Array_sort.
  assert (H : forall acc, increasingKeys acc ->
                increasingKeys (fold_left (fun a x => insert_sorted String.ltb x a) l acc)).
  { induction l as [|x l IH]; intros acc Hacc; [exact Hacc|].
    cbn [fold_left]. apply IH. now apply insert_sorted_increasing. }
  apply H. constructor.
Qed.

(** The first key of an increasing list is its least one and the last
    key its greatest one. *)
Lemma increasing_bounds (k0 : string) (l : list string) :
  increasingKeys (k0 :: l) ->
  forall k, In k (k0 :: l) ->
    String.leb (hd "" (k0 :: l)) k = true /\ String.leb k (last (k0 :: l) "") = true.
Proof.
  unfold increasingKeys. revert k0.
  induction l as [|k1 l IH]; intros k0 H k Hk.
  - destruct Hk as [<-|[]]. cbn. split; apply leb_refl.
  - apply StronglySorted_inv in H. destruct H as [Hs Hall].
    rewrite Forall_forall in Hall.
    change (last (k0 :: k1 :: l) "") with (last (k1 :: l) "").
    cbn [hd]. destruct Hk as [<-|Hk].
    + split; [apply leb_refl|].
      destruct (IH k1 Hs k1 (or_introl eq_refl)) as [_ H1].
      eapply leb_trans; [|exact H1]. apply Hall. now left.
    + split; [now apply Hall|]. now apply (IH k1 Hs k Hk).
Qed.

(* ------------------------------------------------------------------ *)
(** *** The keys of an object *)

(** Writing a property leaves the keys as they are, or adds the key at
    the end. *)
Lemma obj_set_keys (k : string) (v : value) (o : Obj) :
  (In k (keys o) /\ keys (obj_set k v o) = keys o)
  \/ (~ In k (keys o) /\ keys (obj_set k v o) = (keys o ++ [k])%list).
Proof.
  unfold keys. induction o as [|[k' v'] o IH].
  - right. split; [tauto | reflexivity].
  - cbn [obj_set map fst]. destruct (String.eqb_spec k k') as [->|Hne].
    + left. split; [now left | reflexivity].
    + destruct IH as [[Hin E]|[Hnin E]].
      * left. split; [now right|]. cbn [map fst]. now rewrite E.
      * right. split.
        -- intros [H|H]; [congruence | tauto].
        -- cbn [map fst app]. now rewrite E.
Qed.

Lemma obj_set_In (k : string) (v : value) (o : Obj) (k' : string) :
  In k' (keys (obj_set k v o)) <-> k' = k \/ In k' (keys o).
Proof.
  destruct (obj_set_keys k v o) as [[Hin ->]|[Hnin ->]].
  - split; [tauto|]. intros [->|H]; assumption.
  - rewrite in_app_iff. cbn [In]. intuition congruence.
Qed.

Lemma obj_set_NoDup (k : string) (v : value) (o : Obj) :
  NoDup (keys o) -> NoDup (keys (obj_set k v o)).
Proof.
  intros H. destruct (obj_set_keys k v o) as [[Hin ->]|[Hnin ->]]; [exact H|].
  apply NoDup_app; [exact H | repeat constructor; intros [] | ].
  intros x Hx [<-|[]]. contradiction.
Qed.

Lemma insert_index_perm (e : N * (string * value)) (l : list (N * (string * value))) :
  Permutation (e :: l) (insert_index e l).
Proof.
  induction l as [|e' l IH]; [reflexivity|].
  cbn [insert_index]. destruct (fst e <? fst e')%N; [reflexivity|].
  rewrite perm_swap. now apply perm_skip.
Qed.

Lemma indexed_entries_perm (o : Obj) :
  Permutation (filter isIndexed o) (map snd (indexed_entries o)).
Proof.
  induction o as [|kv o IH]; [reflexivity|].
  unfold indexed_entries in *. cbn [fold_right filter]. unfold isIndexed at 1.
  destruct (array_index (fst kv)) as [n|]; [|exact IH].
  rewrite <- (Permutation_map snd (insert_index_perm (n, kv) _)).
  cbn [map snd]. now apply perm_skip.
Qed.

Lemma filter_split_perm {A : Type} (f : A -> bool) (l : list A) :
  Permutation l (filter f l ++ filter (fun x => negb (f x)) l)%list.
Proof.
  induction l as [|a l IH]; [reflexivity|].
  cbn [filter]. destruct (f a); cbn [negb app].
  - now apply perm_skip.
  - rewrite <- Permutation_middle. now apply perm_skip.
Qed.

(** [Object.keys] lists every key once, in its own order. *)
Lemma Object_keys_perm (o : Obj) : Permutation (keys o) (Object_keys o).
Proof.
  unfold Object_keys, Object_entries, keys. apply Permutation_map.
  rewrite (filter_split_perm isIndexed o) at 1.
  apply Permutation_app; [apply indexed_entries_perm|].
  erewrite filter_ext; [reflexivity|].
  intros kv. unfold isIndexed. now destruct (array_index (fst kv)).
Qed.

(* ------------------------------------------------------------------ *)
(** *** The spending trend *)

Section TrendFacts.

Context {rt : Runtime}.

Lemma bucket_keys (t : Transaction) (ms mi : Obj) :
  NoDup (keys ms) ->
  NoDup (keys (fst (bucket (ms, mi) t)))
  /\ forall k, In k (keys (fst (bucket (ms, mi) t)))
               <-> In k (keys ms) \/ In k (expenseKeys [t]).
Proof.
  intros Hnd. unfold bucket, expenseKeys, ofType, timeOf. cbn [filter].
  destruct (strict_eq (type t) (VStr "expense")); cbn [fst map In].
  - split; [now apply obj_set_NoDup|].
    intros k. rewrite obj_set_In. intuition congruence.
  - assert (E : fst (if strict_eq (type t) (VStr "income")
                     then (ms, obj_set (monthKey (new_Date (date t)))
                                 (js_add (js_or (obj_get (monthKey (new_Date (date t))) mi)
                                            (VNum 0)) (amount t)) mi)
                     else (ms, mi)) = ms)
      by (now destruct (strict_eq (type t) (VStr "income"))).
    rewrite E. split; [exact Hnd | tauto].
Qed.

Lemma expenseKeys_cons (t : Transaction) (l : list Transaction) (k : string) :
  In k (expenseKeys (t :: l)) <-> In k (expenseKeys [t]) \/ In k (expenseKeys l).
Proof.
  unfold expenseKeys, ofType. cbn [filter].
  destruct (strict_eq (type t) (VStr "expense")); cbn [map In]; tauto.
Qed.

Lemma fold_bucket_keys (transactions : list Transaction) :
  forall ms mi : Obj,
    NoDup (keys ms) ->
    NoDup (keys (fst (fold_left bucket transactions (ms, mi))))
    /\ forall k, In k (keys (fst (fold_left bucket transactions (ms, mi))))
                 <-> In k (keys ms) \/ In k (expenseKeys transactions).
Proof.
  induction transactions as [|t l IH]; intros ms mi Hnd.
  - cbn [fold_left fst]. split; [exact Hnd|]. intros k.
    unfold expenseKeys, ofType. cbn [filter map In]. tauto.
  - cbn [fold_left]. destruct (bucket_keys t ms mi Hnd) as [Hnd' Hin'].
    destruct (bucket (ms, mi) t) as [ms' mi']. cbn [fst] in *.
    destruct (IH ms' mi' Hnd') as [Hnd'' Hin'']. split; [exact Hnd''|].
    intros k. rewrite Hin'', Hin', (expenseKeys_cons t l). tauto.
Qed.

(** The sorted keys of the monthly spending are the distinct months of
    the expenses. *)
Lemma sorted_months (transactions : list Transaction) :
  let ms := fst (fold_left bucket transactions ([], [])) in
  let months := Array_sort String.ltb (Object_keys ms) in
  increasingKeys months
  /\ List.length months = List.length (spendingMonths transactions)
  /\ forall k, In k months <-> In k (spendingMonths transactions).
Proof.
  intros ms months.
  destruct (fold_bucket_keys transactions [] [] (NoDup_nil _)) as [Hnd Hin].
  fold ms in Hnd, Hin.
  assert (P : Permutation (keys ms) months).
  { unfold months. rewrite <- Array_sort_perm. apply Object_keys_perm. }
  assert (Hiff : forall k, In k months <-> In k (spendingMonths transactions)).
  { intros k. unfold spendingMonths. rewrite nodup_In.
    split; intros H.
    - apply (Permutation_in k (Permutation_sym P)) in H. apply Hin in H.
      destruct H as [[]|H]. exact H.
    - apply (Permutation_in k P). apply Hin. now right. }
  split; [apply Array_sort_increasing|]. split; [|exact Hiff].
  apply Permutation_length. apply NoDup_Permutation.
  - apply (Permutation_NoDup P Hnd).
  - apply NoDup_nodup.
  - exact Hiff.
Qed.

Lemma analyzeSpendingTrends_fields (transactions : list Transaction) :
  let ms := fst (fold_left bucket transactions ([], [])) in
  monthlySpending (analyzeSpendingTrends transactions) = ms
  /\ spendingTrend (analyzeSpendingTrends transactions) = round2 (rawTrend ms)
  /\ trendDirection (analyzeSpendingTrends transactions) = directionOf (rawTrend ms).
Proof.
  unfold analyzeSpendingTrends.
  destruct (fold_left bucket transactions ([], [])) as [ms mi].
  cbn. repeat split.
Qed.

(** C7 (as the code has it): the trend is the spending of the last month
    minus the spending of the first month, in the lexicographic order of
    the month keys, divided by the number of distinct months with an
    expense, and it is 0 with fewer than two such months.  The report
    gives this trend rounded to two decimals, and the direction of the
    trend itself, before it is rounded: increasing above 0, decreasing
    below 0, stable otherwise. *)
Theorem analyzeSpendingTrends_trend :
  forall transactions : list Transaction,
    let tr := analyzeSpendingTrends transactions in
    let months := spendingMonths transactions in
    exists trend : float,
      spendingTrend tr = round2 trend
      /\ trendDirection tr = directionOf trend
      /\ ((List.length months < 2)%nat ->
          trend = 0%float /\ spendingTrend tr = 0%float /\ trendDirection tr = stable)
      /\ ((2 <= List.length months)%nat ->
          exists firstMonth lastMonth : string,
            In firstMonth months /\ In lastMonth months
            /\ (forall k, In k months ->
                  String.leb firstMonth k = true /\ String.leb k lastMonth = true)
            /\ trend
               = (js_sub (spentIn (monthlySpending tr) lastMonth)
                         (spentIn (monthlySpending tr) firstMonth)
                  / Num.Z2F (Z.of_nat (List.length months)))%float).
Proof.
  intros transactions tr months.
  destruct (analyzeSpendingTrends_fields transactions) as [Ems [Etrend Edir]].
  destruct (sorted_months transactions) as [Hsorted [Hlen Hin]].
  fold tr in Ems, Etrend, Edir. fold months in Hlen, Hin.
  set (ms := fst (fold_left bucket transactions ([], []))) in *.
  set (sorted := Array_sort String.ltb (Object_keys ms)) in *.
  exists (rawTrend ms).
  split; [exact Etrend|]. split; [exact Edir|].
  assert (Hraw : rawTrend ms
                 = if 1 <? len sorted
                   then (js_sub (spentIn ms (last sorted "")) (spentIn ms (hd "" sorted))
                         / Num.Z2F (len sorted))%float
                   else 0%float) by reflexivity.
  unfold len in Hraw. rewrite Hlen in Hraw.
  split.
  - intros Hlt.
    assert (E : (1 <? Z.of_nat (List.length months)) = false)
      by (apply Z.ltb_ge; lia).
    rewrite E in Hraw. rewrite Etrend, Edir, Hraw. repeat split.
  - intros Hge.
    assert (E : (1 <? Z.of_nat (List.length months)) = true)
      by (apply Z.ltb_lt; lia).
    rewrite E in Hraw.
    destruct sorted as [|k0 rest] eqn:Es; [cbn in Hlen; lia|].
    exists (hd "" (k0 :: rest)), (last (k0 :: rest) "").
    split; [apply Hin; now left|].
    split.
    { apply Hin. destruct (exists_last (l := k0 :: rest)) as [l' [a Ea]]; [discriminate|].
      rewrite Ea, last_last. apply in_or_app. right. now left. }
    split.
    { intros k Hk. apply (increasing_bounds k0 rest Hsorted). now apply Hin. }
    rewrite Ems. exact Hraw.
Qed.

End TrendFacts.

(** Food bought in January (500) and in February (800): a trend of 150,
    increasing. *)
Example analyzeSpendingTrends_food :
  let tr := analyzeSpendingTrends
              [transaction "2024-01-15" 500 "expense" "Food";
               transaction "2024-02-15" 800 "expense" "Food"] in
  monthlySpending tr = [("2024-01", VNum 500); ("2024-02", VNum 800)]
  /\ spendingTrend tr = 150%float /\ trendDirection tr = increasing.
Proof. vm_compute. repeat split. Qed.

Lemma analyzeSpendingTrends_trend_witness :
  let transactions := [transaction "2024-01-15" 500 "expense" "Food";
                       transaction "2024-02-15" 800 "expense" "Food"] in
  spendingMonths transactions = ["2024-01"; "2024-02"]
  /\ exists trend : float,
       spendingTrend (analyzeSpendingTrends transactions) = round2 trend
       /\ trendDirection (analyzeSpendingTrends transactions) = directionOf trend
       /\ ((List.length (spendingMonths transactions) < 2)%nat ->
           trend = 0%float
           /\ spendingTrend (analyzeSpendingTrends transactions) = 0%float
           /\ trendDirection (analyzeSpendingTrends transactions) = stable)
       /\ ((2 <= List.length (spendingMonths transactions))%nat ->
           exists firstMonth lastMonth : string,
             In firstMonth (spendingMonths transactions)
             /\ In lastMonth (spendingMonths transactions)
             /\ (forall k, In k (spendingMonths transactions) ->
                   String.leb firstMonth k = true /\ String.leb k lastMonth = true)
             /\ trend
                = (js_sub (spentIn (monthlySpending (analyzeSpendingTrends transactions))
                             lastMonth)
                          (spentIn (monthlySpending (analyzeSpendingTrends transactions))
                             firstMonth)
                   / Num.Z2F (Z.of_nat (List.length (spendingMonths transactions))))%float).
Proof.
  split; [reflexivity|].
  exact (analyzeSpendingTrends_trend
           [transaction "2024-01-15" 500 "expense" "Food";
            transaction "2024-02-15" 800 "expense" "Food"]).
Defined.

(** C7, as the specification words it, fails: with 100.00 spent in
    January and 100.01 in March (and 50 in February), the quotient is
    about 0.0033, but the reported trend is 0, and the reported direction
    is increasing although the reported trend is not above 0. *)
Lemma reported_trend_is_rounded :
  let tr := analyzeSpendingTrends
              [transaction "2024-01-15" 100 "expense" "Food";
               transaction "2024-02-15" 50 "expense" "Food";
               transaction "2024-03-15" 100.01 "expense" "Food"] in
  spendingTrend tr = 0%float
  /\ spendingTrend tr
     <> (js_sub (spentIn (monthlySpending tr) "2024-03")
                (spentIn (monthlySpending tr) "2024-01") / 3)%float
  /\ Num.gt (spendingTrend tr) 0 = false
  /\ trendDirection tr = increasing.
Proof.
  cbv zeta. split; [reflexivity|]. split; [|split; reflexivity].
  apply float_neq. vm_compute. discriminate.
Qed.

(* ------------------------------------------------------------------ *)
(** *** Amounts that are not Numbers *)

Section AmountFacts.

Context {rt : Runtime}.

Lemma zeroed_fields (t : Transaction) :
  date (zeroed t) = date t /\ type (zeroed t) = type t /\ category (zeroed t) = category t.
Proof. unfold zeroed. destruct (amount t); repeat split. Qed.

(** Added to a Number, null counts for 0, and the sum is a Number. *)
Lemma js_add_zeroed (x : float) (t : Transaction) :
  numberOrNull (amount t) ->
  js_add (VNum x) (amount (zeroed t)) = js_add (VNum x) (amount t)
  /\ exists y : float, js_add (VNum x) (amount t) = VNum y.
Proof.
  unfold zeroed. destruct (amount t) eqn:E; cbn; try contradiction; intros _.
  - split; [reflexivity | eexists; reflexivity].
  - rewrite E. split; [reflexivity | eexists; reflexivity].
Qed.

Lemma ofType_zeroed (kind : string) (l : list Transaction) :
  ofType kind (map zeroed l) = map zeroed (ofType kind l).
Proof.
  unfold ofType. induction l as [|t l IH]; [reflexivity|].
  cbn [map filter]. destruct (zeroed_fields t) as [_ [-> _]].
  destruct (strict_eq (type t) (VStr kind)); cbn [map]; now rewrite IH.
Qed.

Lemma ofType_Forall (P : Transaction -> Prop) (kind : string) (l : list Transaction) :
  Forall P l -> Forall P (ofType kind l).
Proof.
  intros H. apply Forall_forall. intros t Ht.
  apply filter_In in Ht. rewrite Forall_forall in H. now apply H.
Qed.

Lemma sumAmounts_zeroed (l : list Transaction) :
  Forall (fun t => numberOrNull (amount t)) l ->
  sumAmounts (map zeroed l) = sumAmounts l
  /\ exists y : float, sumAmounts l = VNum y.
Proof.
  unfold sumAmounts. generalize 0%float as x.
  induction l as [|t l IH]; intros x H.
  - split; [reflexivity | eexists; reflexivity].
  - apply Forall_cons_iff in H. destruct H as [Ht Hl].
    destruct (js_add_zeroed x t Ht) as [E [y Ey]].
    cbn [map fold_left]. rewrite E, Ey. apply IH, Hl.
Qed.

Lemma numeric_get (o : Obj) (k : string) :
  numericObj o -> exists x : float, js_or (obj_get k o) (VNum 0) = VNum x.
Proof.
  unfold numericObj. induction o as [|[k' v] o IH]; intros H.
  - eexists. reflexivity.
  - apply Forall_cons_iff in H. destruct H as [[x Hx] Ho]. cbn [snd] in Hx. subst v.
    cbn [obj_get]. destruct (k =? k')%string; [|now apply IH].
    unfold js_or. destruct (ToBoolean (VNum x)); eexists; reflexivity.
Qed.

Lemma numeric_set (o : Obj) (k : string) (x : float) :
  numericObj o -> numericObj (obj_set k (VNum x) o).
Proof.
  unfold numericObj. induction o as [|[k' v] o IH]; intros H.
  - repeat constructor. eexists. reflexivity.
  - apply Forall_cons_iff in H. destruct H as [Hv Ho].
    cbn [obj_set]. destruct (k =? k')%string.
    + constructor; [eexists; reflexivity | exact Ho].
    + constructor; [exact Hv | now apply IH].
Qed.

Lemma addToCategory_zeroed (o : Obj) (t : Transaction) :
  numericObj o -> numberOrNull (amount t) ->
  addToCategory o (zeroed t) = addToCategory o t /\ numericObj (addToCategory o t).
Proof.
  intros Ho Ht. unfold addToCategory.
  destruct (zeroed_fields t) as [_ [_ ->]].
  destruct (numeric_get o (ToString (js_or (category t) (VStr "Uncategorized"))) Ho)
    as [x ->].
  destruct (js_add_zeroed x t Ht) as [-> [y ->]].
  split; [reflexivity | now apply numeric_set].
Qed.

Lemma getCategoryBreakdown_zeroed (l : list Transaction) :
  Forall (fun t => numberOrNull (amount t)) l ->
  getCategoryBreakdown (map zeroed l) = getCategoryBreakdown l.
Proof.
  intros H. unfold getCategoryBreakdown.
  enough (E : forall o, numericObj o ->
                fold_left addToCategory (map zeroed l) o = fold_left addToCategory l o)
    by (rewrite (E [] (Forall_nil _)); reflexivity).
  induction l as [|t l IH]; intros o Ho; [reflexivity|].
  apply Forall_cons_iff in H. destruct H as [Ht Hl].
  destruct (addToCategory_zeroed o t Ho Ht) as [E Ho'].
  cbn [map fold_left]. rewrite E. now apply IH.
Qed.

Lemma bucket_zeroed (ms mi : Obj) (t : Transaction) :
  numericObj ms -> numericObj mi -> numberOrNull (amount t) ->
  bucket (ms, mi) (zeroed t) = bucket (ms, mi) t
  /\ numericObj (fst (bucket (ms, mi) t)) /\ numericObj (snd (bucket (ms, mi) t)).
Proof.
  intros Hs Hi Ht. unfold bucket.
  destruct (zeroed_fields t) as [-> [-> _]].
  set (key := monthKey (new_Date (date t))).
  destruct (numeric_get ms key Hs) as [x ->].
  destruct (numeric_get mi key Hi) as [x' ->].
  destruct (js_add_zeroed x t Ht) as [-> [y ->]].
  destruct (js_add_zeroed x' t Ht) as [-> [y' ->]].
  destruct (strict_eq (type t) (VStr "expense")).
  - cbn [fst snd]. split; [reflexivity|]. split; [now apply numeric_set | exact Hi].
  - destruct (strict_eq (type t) (VStr "income")); cbn [fst snd].
    + split; [reflexivity|]. split; [exact Hs | now apply numeric_set].
    + split; [reflexivity|]. split; assumption.
Qed.

Lemma analyzeSpendingTrends_zeroed (l : list Transaction) :
  Forall (fun t => numberOrNull (amount t)) l ->
  analyzeSpendingTrends (map zeroed l) = analyzeSpendingTrends l.
Proof.
  intros H. unfold analyzeSpendingTrends.
  enough (E : forall ms mi : Obj,
                numericObj ms -> numericObj mi ->
                fold_left bucket (map zeroed l) (ms, mi) = fold_left bucket l (ms, mi))
    by (rewrite (E [] [] (Forall_nil _) (Forall_nil _)); reflexivity).
  induction l as [|t l IH]; intros ms mi Hs Hi; [reflexivity|].
  apply Forall_cons_iff in H. destruct H as [Ht Hl].
  destruct (bucket_zeroed ms mi t Hs Hi Ht) as [E [Hs' Hi']].
  cbn [map fold_left]. rewrite E.
  destruct (bucket (ms, mi) t) as [ms' mi']. now apply IH.
Qed.

(** The totals when every amount is a Number or null. *)
Lemma sumAmounts_numbers (kind : string) (transactions : list Transaction) :
  Forall (fun t => numberOrNull (amount t)) transactions ->
  sumAmounts (ofType kind transactions)
  = VNum (sumOf (map (fun t => counted (amount t)) (ofType kind transactions)))
  /\ sumAmounts (ofType kind transactions)
     = sumAmounts (ofType kind (map zeroed transactions)).
Proof.
  intros H. pose proof (ofType_Forall _ kind _ H) as Hk. split.
  - rewrite sumAmounts_totalAmount. now apply totalAmount_numbers.
  - rewrite ofType_zeroed. now destruct (sumAmounts_zeroed _ Hk) as [-> _].
Qed.

(** The breakdowns and the buckets when every amount is a Number or null. *)
Lemma breakdowns_zeroed (transactions : list Transaction) :
  Forall (fun t => numberOrNull (amount t)) transactions ->
  (forall kind : string,
      getCategoryBreakdown (ofType kind transactions)
      = getCategoryBreakdown (ofType kind (map zeroed transactions)))
  /\ monthlySpending (analyzeSpendingTrends transactions)
     = monthlySpending (analyzeSpendingTrends (map zeroed transactions))
  /\ monthlyIncome (analyzeSpendingTrends transactions)
     = monthlyIncome (analyzeSpendingTrends (map zeroed transactions)).
Proof.
  intros H. split.
  - intros kind. rewrite ofType_zeroed.
    now rewrite (getCategoryBreakdown_zeroed _ (ofType_Forall _ kind _ H)).
  - rewrite (analyzeSpendingTrends_zeroed _ H). split; reflexivity.
Qed.

(** The totals when an amount is a String, and when one is missing. *)
Lemma sumAmounts_text (l : list Transaction) :
  Exists (fun t => isText (amount t)) l ->
  exists s : string, sumAmounts l = VStr s.
Proof.
  intros H. rewrite sumAmounts_totalAmount. unfold totalAmount.
  apply addUp_text. apply Exists_map. exact H.
Qed.

Lemma sumAmounts_missing (l : list Transaction) :
  Forall (fun t => ~ isText (amount t)) l ->
  Exists (fun t => amount t = VUndefined) l ->
  sumAmounts l = VNum nan.
Proof.
  intros Hn He. rewrite sumAmounts_totalAmount. unfold totalAmount.
  apply addUp_missing; [apply Exists_map | apply Forall_map]; assumption.
Qed.

End AmountFacts.

(** C5 (as the code has it): the engine adds the amounts with [+], which
    never throws.  When every amount is a Number or null, each total is
    a Number, the sum of the amounts with 0 for null; and for categories
    that are not the name of a member every object inherits, the
    category breakdowns, like the monthly buckets, are those of the same
    transactions with 0 for null.  When an amount is a String, the total
    is a String; when none is a String and one is missing, the total is
    NaN.  So 100 and null spent on food in January and 40 on rent in
    February are 140 in all, 100 and 40 by category and by month. *)
Theorem null_amounts_contribute_zero :
  (forall (rt : Runtime) (transactions : list Transaction) (kind : string),
      Forall (fun t => numberOrNull (amount t)) transactions ->
      sumAmounts (ofType kind transactions)
      = VNum (sumOf (map (fun t => counted (amount t)) (ofType kind transactions)))
      /\ sumAmounts (ofType kind transactions)
         = sumAmounts (ofType kind (map zeroed transactions)))
  /\ (forall (rt : Runtime) (transactions : list Transaction),
         Forall (fun t => numberOrNull (amount t)) transactions ->
         Forall plainCategory transactions ->
         (forall kind : string,
             getCategoryBreakdown (ofType kind transactions)
             = getCategoryBreakdown (ofType kind (map zeroed transactions)))
         /\ monthlySpending (analyzeSpendingTrends transactions)
            = monthlySpending (analyzeSpendingTrends (map zeroed transactions))
         /\ monthlyIncome (analyzeSpendingTrends transactions)
            = monthlyIncome (analyzeSpendingTrends (map zeroed transactions)))
  /\ (forall (rt : Runtime) (transactions : list Transaction) (kind : string),
         Exists (fun t => isText (amount t)) (ofType kind transactions) ->
         exists s : string, sumAmounts (ofType kind transactions) = VStr s)
  /\ (forall (rt : Runtime) (transactions : list Transaction) (kind : string),
         Forall (fun t => ~ isText (amount t)) (ofType kind transactions) ->
         Exists (fun t => amount t = VUndefined) (ofType kind transactions) ->
         sumAmounts (ofType kind transactions) = VNum nan)
  /\ (let unpriced := {| date := VStr "2024-01-20"; amount := VNull;
                         type := VStr "expense"; category := VStr "Food" |} in
      let transactions := [transaction "2024-01-15" 100 "expense" "Food"; unpriced;
                           transaction "2024-02-02" 40 "expense" "Rent"] in
      let r := fst (performFinancialAnalysis transactions [] []
                      (at_time "2024-06-10")) in
      total (expenses r) = VNum 140
      /\ categories (expenses r)
         = Some [{| name := "Food"; cat_amount := VNum 100 |};
                 {| name := "Rent"; cat_amount := VNum 40 |}]
      /\ monthlySpending (trends r) = [("2024-01", VNum 100); ("2024-02", VNum 40)]).
Proof.
  split; [intros rt transactions kind; apply sumAmounts_numbers|].
  split; [intros rt transactions H _; now apply breakdowns_zeroed|].
  split; [intros rt transactions kind; apply sumAmounts_text|].
  split; [intros rt transactions kind; apply sumAmounts_missing|].
  vm_compute. repeat split.
Qed.

Lemma null_amounts_contribute_zero_witness :
  let unpriced := {| date := VStr "2024-01-20"; amount := VNull;
                     type := VStr "income"; category := VStr "Gift" |} in
  let missing := {| date := VStr "2024-01-21"; amount := VUndefined;
                    type := VStr "income"; category := VStr "Gift" |} in
  let text := {| date := VStr "2024-01-22"; amount := VStr "12abc";
                 type := VStr "income"; category := VStr "Gift" |} in
  let salary := transaction "2024-01-15" 100 "income" "Salary" in
  let bonus := transaction "2024-01-28" 25 "income" "Gift" in
  let transactions := [salary; unpriced; bonus] in
  (Forall (fun t => numberOrNull (amount t)) transactions
   /\ Forall plainCategory transactions
   /\ sumOf (map (fun t => counted (amount t)) (ofType "income" transactions))
      = 125%float)
  /\ (sumAmounts (ofType "income" transactions)
      = VNum (sumOf (map (fun t => counted (amount t)) (ofType "income" transactions)))
      /\ sumAmounts (ofType "income" transactions)
         = sumAmounts (ofType "income" (map zeroed transactions)))
  /\ ((forall kind : string,
          getCategoryBreakdown (ofType kind transactions)
          = getCategoryBreakdown (ofType kind (map zeroed transactions)))
      /\ monthlySpending (analyzeSpendingTrends transactions)
         = monthlySpending (analyzeSpendingTrends (map zeroed transactions))
      /\ monthlyIncome (analyzeSpendingTrends transactions)
         = monthlyIncome (analyzeSpendingTrends (map zeroed transactions)))
  /\ (Exists (fun t => isText (amount t)) (ofType "income" [salary; text; bonus])
      /\ exists s : string, sumAmounts (ofType "income" [salary; text; bonus]) = VStr s)
  /\ (Forall (fun t => ~ isText (amount t)) (ofType "income" [salary; missing; bonus])
      /\ Exists (fun t => amount t = VUndefined) (ofType "income" [salary; missing; bonus])
      /\ sumAmounts (ofType "income" [salary; missing; bonus]) = VNum nan).
Proof.
  intros unpriced missing text salary bonus transactions.
  assert (H : Forall (fun t => numberOrNull (amount t)) transactions)
    by (repeat constructor).
  assert (Hc : Forall plainCategory transactions)
    by (repeat constructor; intros K; cbv in K; intuition discriminate).
  assert (Ht : Exists (fun t => isText (amount t))
                 (ofType "income" [salary; text; bonus]))
    by (right; left; now exists "12abc").
  assert (Hn : Forall (fun t => ~ isText (amount t))
                 (ofType "income" [salary; missing; bonus]))
    by (repeat constructor; intros [s K]; discriminate).
  assert (Hm : Exists (fun t => amount t = VUndefined)
                 (ofType "income" [salary; missing; bonus]))
    by (right; left; reflexivity).
  split; [split; [exact H | split; [exact Hc | vm_compute; reflexivity]]|].
  split; [exact (proj1 null_amounts_contribute_zero runtime transactions "income" H)|].
  split; [exact (proj1 (proj2 null_amounts_contribute_zero) runtime transactions H Hc)|].
  split; [split; [exact Ht|];
          exact (proj1 (proj2 (proj2 null_amounts_contribute_zero)) runtime
                   [salary; text; bonus] "income" Ht)|].
  split; [exact Hn|]. split; [exact Hm|].
  exact (proj1 (proj2 (proj2 (proj2 null_amounts_contribute_zero))) runtime
           [salary; missing; bonus] "income" Hn Hm).
Defined.

(** C5, as the specification words it, fails: an amount that is missing
    turns the total into NaN, and an amount that is a String is
    concatenated to it; neither contributes 0. *)
Lemma malformed_amount_spoils_total :
  let missing := {| date := VStr "2024-01-20"; amount := VUndefined;
                    type := VStr "income"; category := VStr "Gift" |} in
  let text := {| date := VStr "2024-01-20"; amount := VStr "12abc";
                 type := VStr "income"; category := VStr "Gift" |} in
  let salary := transaction "2024-01-15" 100 "income" "Salary" in
  sumAmounts (map zeroed [salary; missing]) = VNum 100
  /\ sumAmounts [salary; missing] = VNum nan
  /\ sumAmounts (map zeroed [salary; text]) = VNum 100
  /\ sumAmounts [salary; text] = VStr "10012abc"
  /\ total (income (fst (performFinancialAnalysis [salary; missing] [] []
                           (at_time "2024-06-10")))) = VNum nan.
Proof. vm_compute. repeat split. Qed.

(* ================================================================== *)
(** ** More properties *)

(* ------------------------------------------------------------------ *)
(** *** Numbers in order *)

(** What [SFcompare] answers, in terms of the ranks. *)
Lemma SFcompare_rank (x y : spec_float) :
  match SFcompare x y with
  | None => rank x = None \/ rank y = None
  | Some Lt => exists p q, rank x = Some p /\ rank y = Some q /\ lexlt p q
  | Some Eq => exists p, rank x = Some p /\ rank y = Some p
  | Some Gt => exists p q, rank x = Some p /\ rank y = Some q /\ lexlt q p
  end.
Proof.
  destruct x as [sx|sx| |sx mx ex], y as [sy|sy| |sy my ey];
    try destruct sx; try destruct sy; cbn [SFcompare rank];
    try (now left); try (now right);
    try (eexists; split; [reflexivity | reflexivity]);
    try (eexists; eexists; split; [reflexivity|]; split; [reflexivity|]; cbn; lia).
  - (* both negative *)
    destruct (Z.compare_spec ex ey) as [E|E|E].
    + subst ey. change (Pos.compare_cont Eq mx my) with (Pos.compare mx my).
      destruct (Pos.compare_spec mx my) as [E'|E'|E']; cbn [CompOpp].
      * subst my. eexists. split; reflexivity.
      * eexists; eexists. split; [reflexivity|]. split; [reflexivity|]. cbn. lia.
      * eexists; eexists. split; [reflexivity|]. split; [reflexivity|]. cbn. lia.
    + eexists; eexists. split; [reflexivity|]. split; [reflexivity|]. cbn. lia.
    + eexists; eexists. split; [reflexivity|]. split; [reflexivity|]. cbn. lia.
  - destruct (Z.compare_spec ex ey) as [E|E|E].
    + subst ey. change (Pos.compare_cont Eq mx my) with (Pos.compare mx my).
      destruct (Pos.compare_spec mx my) as [E'|E'|E'].
      * subst my. eexists. split; reflexivity.
      * eexists; eexists. split; [reflexivity|]. split; [reflexivity|]. cbn. lia.
      * eexists; eexists. split; [reflexivity|]. split; [reflexivity|]. cbn. lia.
    + eexists; eexists. split; [reflexivity|]. split; [reflexivity|]. cbn. lia.
    + eexists; eexists. split; [reflexivity|]. split; [reflexivity|]. cbn. lia.
Qed.

Lemma ltb_rank (x y : float) :
  (x <? y)%float = true
  <-> exists p q, rankOf x = Some p /\ rankOf y = Some q /\ lexlt p q.
Proof.
  rewrite ltb_spec. unfold SFltb, rankOf.
  pose proof (SFcompare_rank (Prim2SF x) (Prim2SF y)) as H.
  destruct (SFcompare (Prim2SF x) (Prim2SF y)) as [[| |]|].
  - destruct H as [p [Hx Hy]]. split; [discriminate|].
    intros [p' [q' [Hx' [Hy' L]]]]. rewrite Hx in Hx'. rewrite Hy in Hy'.
    inversion Hx'. inversion Hy'. subst. destruct q' as [[a b] c]. cbn in L. lia.
  - split; auto.
  - destruct H as [p [q [Hx [Hy L]]]]. split; [discriminate|].
    intros [p' [q' [Hx' [Hy' L']]]]. rewrite Hx in Hx'. rewrite Hy in Hy'.
    inversion Hx'. inversion Hy'. subst.
    destruct p' as [[a b] c], q' as [[a' b'] c']. cbn in L, L'. lia.
  - split; [discriminate|].
    intros [p' [q' [Hx' [Hy' _]]]]. destruct H as [H|H]; congruence.
Qed.

Lemma leb_rank (x y : float) :
  (x <=? y)%float = true
  <-> exists p q, rankOf x = Some p /\ rankOf y = Some q /\ lexle p q.
Proof.
  rewrite leb_spec. unfold SFleb, rankOf, lexle.
  pose proof (SFcompare_rank (Prim2SF x) (Prim2SF y)) as H.
  destruct (SFcompare (Prim2SF x) (Prim2SF y)) as [[| |]|].
  - destruct H as [p [Hx Hy]]. split; auto. intros _. exists p, p. auto.
  - destruct H as [p [q [Hx [Hy L]]]]. split; auto. intros _. exists p, q. auto.
  - destruct H as [p [q [Hx [Hy L]]]]. split; [discriminate|].
    intros [p' [q' [Hx' [Hy' L']]]]. rewrite Hx in Hx'. rewrite Hy in Hy'.
    inversion Hx'. inversion Hy'. subst.
    destruct p' as [[a b] c], q' as [[a' b'] c']. cbn in L.
    destruct L' as [L'|L']; [cbn in L'; lia | inversion L'; subst; lia].
  - split; [discriminate|].
    intros [p' [q' [Hx' [Hy' _]]]]. destruct H as [H|H]; congruence.
Qed.

Lemma lexle_trans (p q r : Z * Z * Z) : lexle p q -> lexle q r -> lexle p r.
Proof.
  unfold lexle. destruct p as [[a b] c], q as [[a' b'] c'], r as [[a'' b''] c''].
  intros [H|H] [H'|H'].
  - left. cbn in *. lia.
  - inversion H'; subst. now left.
  - inversion H; subst. now left.
  - inversion H; subst. now right.
Qed.

Lemma lexlt_le_trans (p q r : Z * Z * Z) : lexlt p q -> lexle q r -> lexlt p r.
Proof.
  unfold lexle. destruct p as [[a b] c], q as [[a' b'] c'], r as [[a'' b''] c''].
  intros H [H'|H']; [|inversion H'; subst; exact H]. cbn in *. lia.
Qed.

Lemma lexle_lt_trans (p q r : Z * Z * Z) : lexle p q -> lexlt q r -> lexlt p r.
Proof.
  unfold lexle. destruct p as [[a b] c], q as [[a' b'] c'], r as [[a'' b''] c''].
  intros [H|H] H'; [|inversion H; subst; exact H']. cbn in *. lia.
Qed.

(** [<=] on Numbers is transitive, and [<] goes through it. *)
Lemma float_le_trans (x y z : float) :
  (x <=? y)%float = true -> (y <=? z)%float = true -> (x <=? z)%float = true.
Proof.
  rewrite !leb_rank. intros [p [q [Hx [Hy L]]]] [q' [r [Hy' [Hz L']]]].
  rewrite Hy in Hy'. inversion Hy'. subst q'.
  exists p, r. repeat split; auto. eapply lexle_trans; eauto.
Qed.

Lemma float_lt_le_trans (x y z : float) :
  (x <? y)%float = true -> (y <=? z)%float = true -> (x <? z)%float = true.
Proof.
  rewrite leb_rank, !ltb_rank. intros [p [q [Hx [Hy L]]]] [q' [r [Hy' [Hz L']]]].
  rewrite Hy in Hy'. inversion Hy'. subst q'.
  exists p, r. repeat split; auto. eapply lexlt_le_trans; eauto.
Qed.

Lemma float_lt_trans (x y z : float) :
  (x <? y)%float = true -> (y <? z)%float = true -> (x <? z)%float = true.
Proof.
  rewrite !ltb_rank. intros [p [q [Hx [Hy L]]]] [q' [r [Hy' [Hz L']]]].
  rewrite Hy in Hy'. inversion Hy'. subst q'.
  exists p, r. repeat split; auto.
  eapply lexlt_le_trans; [exact L | left; exact L'].
Qed.


(* ------------------------------------------------------------------ *)
(** *** What the analysis of the budgets reads *)

Section BudgetMore.
Context {rt : Runtime}.

Lemma filter_implied {A : Type} (f g : A -> bool) (l : list A) :
  (forall x, f x = true -> g x = true) -> filter f (filter g l) = filter f l.
Proof.
  intros H. induction l as [|a l IH]; [reflexivity|].
  cbn [filter]. destruct (g a) eqn:G; cbn [filter].
  - now rewrite IH.
  - destruct (f a) eqn:F; [|exact IH]. rewrite (H a F) in G. discriminate.
Qed.

Lemma categorySpent_expenses (transactions : list Transaction) (b : Budget) :
  categorySpent (ofType "expense" transactions) b = categorySpent transactions b.
Proof.
  unfold categorySpent, ofType. f_equal. apply filter_implied.
  intros t H. apply andb_true_iff in H. tauto.
Qed.

Lemma sumAmounts_map (f : Transaction -> Transaction) (l : list Transaction) :
  (forall t, amount (f t) = amount t) -> sumAmounts (map f l) = sumAmounts l.
Proof.
  intros H. unfold sumAmounts. generalize (VNum 0).
  induction l as [|t l IH]; intros acc; [reflexivity|].
  cbn [map fold_left]. rewrite H. apply IH.
Qed.

Lemma filter_map_same {A : Type} (p : A -> bool) (f : A -> A) (l : list A) :
  (forall x, p (f x) = p x) -> filter p (map f l) = map f (filter p l).
Proof.
  intros H. induction l as [|a l IH]; [reflexivity|].
  cbn [map filter]. rewrite H. destruct (p a); cbn [map]; now rewrite IH.
Qed.

Lemma categorySpent_redate (g : Transaction -> value) (transactions : list Transaction)
    (b : Budget) :
  categorySpent (map (fun t => redate t (g t)) transactions) b
  = categorySpent transactions b.
Proof.
  unfold categorySpent.
  rewrite (filter_map_same
             (fun t => strict_eq (category t) (category_name b)
                       && strict_eq (type t) (VStr "expense"))
             (fun t => redate t (g t))) by reflexivity.
  now apply sumAmounts_map.
Qed.

(** The analysis of the budgets reads the transactions through
    [categorySpent] alone. *)
Lemma analyzeBudgets_ext (budgets : list Budget) (l l' : list Transaction) (m y : value) :
  (forall b, categorySpent l b = categorySpent l' b) ->
  analyzeBudgets budgets l m y = analyzeBudgets budgets l' m y.
Proof.
  intros H. unfold analyzeBudgets.
  destruct (List.length (filter (fun b => strict_eq (month b) m && strict_eq (year b) y) budgets) =? 0)%nat;
    [reflexivity|].
  rewrite (fold_left_ext
             (fun sum budget => (sum + Math_min (categorySpent l budget) (budget_amount budget))%float)
             (fun sum budget => (sum + Math_min (categorySpent l' budget) (budget_amount budget))%float))
    by (intros; now rewrite H).
  rewrite (filter_ext
             (fun budget => js_gt (categorySpent l budget) (budget_amount budget))
             (fun budget => js_gt (categorySpent l' budget) (budget_amount budget)))
    by (intros; now rewrite H).
  reflexivity.
Qed.

Lemma filter_idem {A : Type} (f : A -> bool) (l : list A) :
  filter f (filter f l) = filter f l.
Proof. now apply filter_implied. Qed.

(** X2: the analysis of the budgets never reads the date of a
    transaction: with any other dates it is the same.  The expenses of
    every month and year count against the budgets of the current
    month. *)
Theorem analyzeBudgets_ignores_dates :
  forall (budgets : list Budget) (transactions : list Transaction) (m y : value)
         (g : Transaction -> value),
    analyzeBudgets budgets (map (fun t => redate t (g t)) transactions) m y
    = analyzeBudgets budgets transactions m y.
Proof.
  intros budgets transactions m y g.
  apply analyzeBudgets_ext. intros b. apply categorySpent_redate.
Qed.

(** X3: the analysis of the budgets reads only the budgets of the month
    and the year and the transactions of type expense: without the other
    budgets and the other transactions it is the same. *)
Theorem analyzeBudgets_reads_period_and_expenses :
  forall (budgets : list Budget) (transactions : list Transaction) (m y : value),
    analyzeBudgets budgets transactions m y
    = analyzeBudgets (currentBudgets m y budgets) (ofType "expense" transactions) m y.
Proof.
  intros budgets transactions m y.
  rewrite (analyzeBudgets_ext budgets transactions (ofType "expense" transactions))
    by (intros b; symmetry; apply categorySpent_expenses).
  unfold analyzeBudgets, currentBudgets.
  change (fun b => strict_eq (month b) m && strict_eq (year b) y) with (inPeriod m y).
  now rewrite filter_idem.
Qed.

Lemma overBudget_nonneg (limits : list Budget) (l : list Transaction) (m y : value) :
  0 <= overBudget (analyzeBudgets limits l m y).
Proof.
  unfold analyzeBudgets.
  destruct (List.length (filter (fun b => strict_eq (month b) m && strict_eq (year b) y) limits) =? 0)%nat;
    cbn [overBudget]; unfold len; lia.
Qed.

(** X1: the counts of the analysis of the budgets: [totalBudgets] is the
    number of budgets of the month and the year, each of them is counted
    once, over or under, and no count is negative. *)
Theorem analyzeBudgets_counts :
  forall (budgets : list Budget) (transactions : list Transaction) (m y : value),
    let a := analyzeBudgets budgets transactions m y in
    totalBudgets a = len (currentBudgets m y budgets)
    /\ 0 <= overBudget a <= totalBudgets a
    /\ 0 <= underBudget a <= totalBudgets a
    /\ overBudget a + underBudget a = totalBudgets a.
Proof.
  intros budgets transactions m y a. subst a. unfold analyzeBudgets, currentBudgets.
  change (fun b => strict_eq (month b) m && strict_eq (year b) y) with (inPeriod m y).
  destruct (filter (inPeriod m y) budgets) as [|b0 bs] eqn:E.
  - cbn. lia.
  - cbn [List.length Nat.eqb totalBudgets overBudget underBudget].
    pose proof (filter_length_le
                  (fun budget => js_gt (categorySpent transactions budget) (budget_amount budget))
                  (b0 :: bs)) as H.
    unfold len. lia.
Qed.

End BudgetMore.



(* ------------------------------------------------------------------ *)
(** *** The names of a breakdown *)

Section CategoryMore.
Context {rt : Runtime}.

Lemma addToCategory_keys (o : Obj) (t : Transaction) :
  NoDup (keys o) ->
  NoDup (keys (addToCategory o t))
  /\ forall k, In k (keys (addToCategory o t)) <-> k = categoryKey t \/ In k (keys o).
Proof.
  intros H. unfold addToCategory. fold (categoryKey t). split.
  - now apply obj_set_NoDup.
  - intros k. apply obj_set_In.
Qed.

Lemma fold_addToCategory_keys (l : list Transaction) :
  forall o : Obj,
    NoDup (keys o) ->
    NoDup (keys (fold_left addToCategory l o))
    /\ forall k, In k (keys (fold_left addToCategory l o))
                 <-> In k (keys o) \/ In k (map categoryKey l).
Proof.
  induction l as [|t l IH]; intros o H.
  - cbn. split; [exact H | tauto].
  - cbn [fold_left map]. destruct (addToCategory_keys o t H) as [H1 H2].
    destruct (IH _ H1) as [H3 H4]. split; [exact H3|].
    intros k. rewrite H4, H2. cbn [In]. intuition congruence.
Qed.

Lemma breakdown_names (l : list Transaction) :
  Permutation (keys (fold_left addToCategory l []))
              (map name (getCategoryBreakdown l)).
Proof.
  unfold getCategoryBreakdown.
  rewrite <- (Permutation_map name (Array_sort_perm byAmountDesc _)).
  rewrite map_map.
  rewrite (map_ext (fun x => name (let '(name, amount) := x in
                                   {| name := name; cat_amount := amount |})) fst)
    by (now intros [k v]).
  apply Object_keys_perm.
Qed.

(** X4: a category breakdown names every category once; its names are
    the categories of the transactions, read as Strings, with
    Uncategorized for a category that is missing, null or empty; and it
    has no more entries than there are transactions.  This is for
    categories other than [__proto__], the one key that an assignment
    does not create on a plain object. *)
Theorem getCategoryBreakdown_names :
  forall transactions : list Transaction,
    Forall (fun t => categoryKey t <> "__proto__") transactions ->
    let names := map name (getCategoryBreakdown transactions) in
    NoDup names
    /\ (forall n, In n names <-> exists t, In t transactions /\ categoryKey t = n)
    /\ (List.length (getCategoryBreakdown transactions) <= List.length transactions)%nat
    /\ (forall t, In t transactions -> ToBoolean (category t) = false ->
                  In "Uncategorized" names).
Proof.
  intros l _ names.
  destruct (fold_addToCategory_keys l [] (NoDup_nil _)) as [Hnd Hin].
  pose proof (breakdown_names l) as P. fold names in P.
  assert (Hn : NoDup names) by (apply (Permutation_NoDup P Hnd)).
  assert (Hiff : forall n, In n names <-> exists t, In t l /\ categoryKey t = n).
  { intros n. split.
    - intros H. apply (Permutation_in n (Permutation_sym P)) in H.
      apply Hin in H. destruct H as [[]|H].
      apply in_map_iff in H. destruct H as [t [E Ht]]. eauto.
    - intros [t [Ht E]]. apply (Permutation_in n P). apply Hin. right.
      apply in_map_iff. eauto. }
  split; [exact Hn|]. split; [exact Hiff|]. split.
  - rewrite <- (length_map name). fold names.
    rewrite <- (length_map categoryKey l).
    apply NoDup_incl_length; [exact Hn|].
    intros n H. apply Hiff in H. destruct H as [t [Ht E]].
    apply in_map_iff. eauto.
  - intros t Ht Hc. apply Hiff. exists t. split; [exact Ht|].
    unfold categoryKey, js_or. now rewrite Hc.
Qed.

End CategoryMore.

Lemma getCategoryBreakdown_names_witness :
  let unfiled := {| date := VStr "2024-01-20"; amount := VNum 30;
                    type := VStr "expense"; category := VNull |} in
  let l := [unfiled;
            transaction "2024-01-15" 100 "expense" "Food";
            transaction "2024-01-22" 45 "expense" "Food"] in
  let names := map name (getCategoryBreakdown l) in
  Forall (fun t => categoryKey t <> "__proto__") l
  /\ names = ["Food"; "Uncategorized"]
  /\ NoDup names
  /\ (forall n, In n names <-> exists t, In t l /\ categoryKey t = n)
  /\ (List.length (getCategoryBreakdown l) <= List.length l)%nat
  /\ (forall t, In t l -> ToBoolean (category t) = false ->
                In "Uncategorized" names).
Proof.
  intros unfiled l names.
  assert (H : Forall (fun t => categoryKey t <> "__proto__") l)
    by (repeat constructor; intros E; vm_compute in E; discriminate).
  split; [exact H|]. split; [vm_compute; reflexivity|].
  exact (getCategoryBreakdown_names l H).
Defined.

(* ------------------------------------------------------------------ *)
(** *** The monthly maps *)

Section BucketMore.
Context {rt : Runtime}.


Lemma strict_eq_string (v : value) (s : string) :
  strict_eq v (VStr s) = true -> v = VStr s.
Proof.
  destruct v; cbn; try discriminate. intros H. apply String.eqb_eq in H. now subst.
Qed.

Lemma strict_eq_other (v : value) (s s' : string) :
  strict_eq v (VStr s) = true -> s <> s' -> strict_eq v (VStr s') = false.
Proof.
  intros H Hne. apply strict_eq_string in H. subst v. cbn.
  now apply String.eqb_neq.
Qed.

Lemma bucket_income_keys (t : Transaction) (ms mi : Obj) :
  NoDup (keys mi) ->
  NoDup (keys (snd (bucket (ms, mi) t)))
  /\ forall k, In k (keys (snd (bucket (ms, mi) t)))
               <-> In k (keys mi) \/ In k (incomeKeys [t]).
Proof.
  intros Hnd. unfold bucket, incomeKeys, ofType, timeOf. cbn [filter].
  destruct (strict_eq (type t) (VStr "expense")) eqn:E.
  - rewrite (strict_eq_other _ _ "income" E) by discriminate.
    cbn [snd map In]. split; [exact Hnd | tauto].
  - destruct (strict_eq (type t) (VStr "income")); cbn [snd map In].
    + split; [now apply obj_set_NoDup|].
      intros k. rewrite obj_set_In. intuition congruence.
    + split; [exact Hnd | tauto].
Qed.

Lemma incomeKeys_cons (t : Transaction) (l : list Transaction) (k : string) :
  In k (incomeKeys (t :: l)) <-> In k (incomeKeys [t]) \/ In k (incomeKeys l).
Proof.
  unfold incomeKeys, ofType. cbn [filter].
  destruct (strict_eq (type t) (VStr "income")); cbn [map In]; tauto.
Qed.

Lemma fold_bucket_income_keys (transactions : list Transaction) :
  forall ms mi : Obj,
    NoDup (keys mi) ->
    NoDup (keys (snd (fold_left bucket transactions (ms, mi))))
    /\ forall k, In k (keys (snd (fold_left bucket transactions (ms, mi))))
                 <-> In k (keys mi) \/ In k (incomeKeys transactions).
Proof.
  induction transactions as [|t l IH]; intros ms mi Hnd.
  - cbn [fold_left snd]. split; [exact Hnd|]. intros k.
    unfold incomeKeys, ofType. cbn [filter map In]. tauto.
  - cbn [fold_left]. destruct (bucket_income_keys t ms mi Hnd) as [Hnd' Hin'].
    destruct (bucket (ms, mi) t) as [ms' mi']. cbn [snd] in *.
    destruct (IH ms' mi' Hnd') as [Hnd'' Hin'']. split; [exact Hnd''|].
    intros k. rewrite Hin'', Hin', (incomeKeys_cons t l). tauto.
Qed.

Lemma analyzeSpendingTrends_maps (transactions : list Transaction) :
  monthlySpending (analyzeSpendingTrends transactions)
  = fst (fold_left bucket transactions ([], []))
  /\ monthlyIncome (analyzeSpendingTrends transactions)
     = snd (fold_left bucket transactions ([], [])).
Proof.
  unfold analyzeSpendingTrends.
  destruct (fold_left bucket transactions ([], [])) as [ms mi]. split; reflexivity.
Qed.

(** X5: the monthly maps have one key for every month with an expense
    (an income), no key twice and no other key. *)
Theorem monthly_maps_keys :
  forall transactions : list Transaction,
    let tr := analyzeSpendingTrends transactions in
    NoDup (keys (monthlySpending tr))
    /\ NoDup (keys (monthlyIncome tr))
    /\ (forall k, In k (keys (monthlySpending tr)) <-> In k (expenseKeys transactions))
    /\ (forall k, In k (keys (monthlyIncome tr)) <-> In k (incomeKeys transactions)).
Proof.
  intros l tr. subst tr.
  destruct (analyzeSpendingTrends_maps l) as [-> ->].
  destruct (fold_bucket_keys l [] [] (NoDup_nil _)) as [H1 H2].
  destruct (fold_bucket_income_keys l [] [] (NoDup_nil _)) as [H3 H4].
  repeat split; auto.
  - intros H. apply H2 in H. now destruct H as [[]|H].
  - intros H. apply H2. now right.
  - intros H. apply H4 in H. now destruct H as [[]|H].
  - intros H. apply H4. now right.
Qed.

Lemma fold_left_filter_noop {A B : Type} (step : A -> B -> A) (keep : B -> bool)
    (l : list B) :
  (forall a x, keep x = false -> step a x = a) ->
  forall a, fold_left step (filter keep l) a = fold_left step l a.
Proof.
  intros H. induction l as [|x l IH]; intros a; [reflexivity|].
  cbn [filter fold_left]. destruct (keep x) eqn:K.
  - cbn [fold_left]. apply IH.
  - rewrite (H a x K). apply IH.
Qed.

Lemma bucket_not_bucketed (maps : Obj * Obj) (t : Transaction) :
  isBucketed t = false -> bucket maps t = maps.
Proof.
  unfold isBucketed, bucket. intros H. apply orb_false_iff in H.
  destruct H as [-> ->]. now destruct maps.
Qed.

Lemma bucket_spending (t : Transaction) (ms mi mi' : Obj) :
  fst (bucket (ms, mi) t)
  = fst (if strict_eq (type t) (VStr "expense") then bucket (ms, mi') t else (ms, mi')).
Proof.
  unfold bucket. destruct (strict_eq (type t) (VStr "expense")); [reflexivity|].
  now destruct (strict_eq (type t) (VStr "income")).
Qed.

Lemma fold_bucket_spending (l : list Transaction) :
  forall ms mi mi' : Obj,
    fst (fold_left bucket l (ms, mi))
    = fst (fold_left bucket (ofType "expense" l) (ms, mi')).
Proof.
  unfold ofType. induction l as [|t l IH]; intros ms mi mi'; [reflexivity|].
  cbn [fold_left filter].
  pose proof (bucket_spending t ms mi mi') as H.
  destruct (strict_eq (type t) (VStr "expense")).
  - cbn [fold_left].
    destruct (bucket (ms, mi) t) as [a b], (bucket (ms, mi') t) as [a' b'].
    cbn [fst] in H. subst a'. apply IH.
  - destruct (bucket (ms, mi) t) as [a b]. cbn [fst] in H. subst a. apply IH.
Qed.

(** X6: the spending trends read only the expenses and the incomes (a
    transaction of another type changes nothing), and the spending map,
    the trend and its direction read only the expenses. *)
Theorem analyzeSpendingTrends_reads_expenses :
  forall transactions : list Transaction,
    analyzeSpendingTrends (filter isBucketed transactions)
    = analyzeSpendingTrends transactions
    /\ (let tr := analyzeSpendingTrends transactions in
        let tr' := analyzeSpendingTrends (ofType "expense" transactions) in
        monthlySpending tr' = monthlySpending tr
        /\ spendingTrend tr' = spendingTrend tr
        /\ trendDirection tr' = trendDirection tr
        /\ monthlyIncome tr' = []).
Proof.
  intros l. split.
  - unfold analyzeSpendingTrends.
    now rewrite (fold_left_filter_noop bucket isBucketed l bucket_not_bucketed).
  - cbv zeta.
    destruct (analyzeSpendingTrends_fields l) as [E1 [E2 E3]].
    destruct (analyzeSpendingTrends_fields (ofType "expense" l)) as [F1 [F2 F3]].
    assert (E : fst (fold_left bucket (ofType "expense" l) ([], []))
                = fst (fold_left bucket l ([], []))).
    { symmetry. apply fold_bucket_spending. }
    rewrite E in F1, F2, F3.
    rewrite E1, E2, E3, F1, F2, F3. repeat split.
    destruct (analyzeSpendingTrends_maps (ofType "expense" l)) as [_ ->].
    destruct (fold_bucket_income_keys (ofType "expense" l) [] [] (NoDup_nil _)) as [_ H].
    destruct (snd (fold_left bucket (ofType "expense" l) ([], []))) as [|[k v] o];
      [reflexivity|].
    exfalso. destruct (H k) as [H' _]. specialize (H' (or_introl eq_refl)).
    destruct H' as [[]|H'].
    unfold incomeKeys in H'. apply in_map_iff in H'. destruct H' as [t [_ Ht]].
    unfold ofType in Ht. apply filter_In in Ht. destruct Ht as [Ht Hi].
    apply filter_In in Ht. destruct Ht as [_ He].
    rewrite (strict_eq_other _ _ "income" He) in Hi by discriminate. discriminate.
Qed.

End BucketMore.



(* ------------------------------------------------------------------ *)
(** *** How the report is put together *)

Section ReportMore.
Context {rt : Runtime}.

(** The parts of a report, each as the function that builds it. *)
Lemma report_parts (l : list Transaction) (goals : list Target)
    (limits : list Budget) (clock : Clock) :
  let r := fst (performFinancialAnalysis l goals limits clock) in
  income r = flowOf "income" true l
  /\ expenses r = flowOf "expense" true l
  /\ investments r = flowOf "investment" false l
  /\ netIncome r
     = {| net_total := js_sub (sumAmounts (ofType "income" l)) (sumAmounts (ofType "expense" l));
          net_monthly := m_monthlyNetIncome (metricsOf l goals limits clock) |}
  /\ savingsRate r = round2 (rawSavingsRate l)
  /\ targets r = fst (analyzeTargets goals (later clock))
  /\ budgets r = analyzeBudgets limits l (monthOf clock) (yearOf clock)
  /\ trends r = analyzeSpendingTrends l
  /\ healthScore r = calculateFinancialHealthScore (metricsOf l goals limits clock)
  /\ totalTransactions (period r) = len l.
Proof.
  cbv zeta. unfold performFinancialAnalysis, bind, Date_now, metricsOf.
  fold (later clock).
  destruct (analyzeTargets goals (later clock)) as [ta c'].
  cbn [fst ret]. unfold ret. cbn [fst]. repeat split.
Qed.


Lemma ofType_notInvestment (kind : string) (l : list Transaction) :
  kind <> "investment" ->
  ofType kind (filter notInvestment l) = ofType kind l.
Proof.
  intros H. unfold ofType. apply filter_implied.
  intros t Ht. unfold notInvestment.
  now rewrite (strict_eq_other _ _ "investment" Ht H).
Qed.

Lemma isBucketed_notInvestment (t : Transaction) :
  notInvestment t = false -> isBucketed t = false.
Proof.
  unfold notInvestment, isBucketed. intros H. apply negb_false_iff in H.
  rewrite (strict_eq_other _ _ "expense" H), (strict_eq_other _ _ "income" H)
    by discriminate.
  reflexivity.
Qed.

(** X8: the investments move nothing but their own part of the report
    (and its period): without them, the income, the expenses, the net
    income, the savings rate, the targets, the budgets, the trends and
    the health score are the same. *)
Theorem investments_only_move_their_part :
  forall (l : list Transaction) (goals : list Target) (limits : list Budget)
         (clock : Clock),
    let r := fst (performFinancialAnalysis l goals limits clock) in
    let r' := fst (performFinancialAnalysis (filter notInvestment l) goals limits clock) in
    income r' = income r
    /\ expenses r' = expenses r
    /\ netIncome r' = netIncome r
    /\ savingsRate r' = savingsRate r
    /\ targets r' = targets r
    /\ budgets r' = budgets r
    /\ trends r' = trends r
    /\ healthScore r' = healthScore r
    /\ total (investments r') = VNum 0
    /\ transactions (investments r') = 0.
Proof.
  intros l goals limits clock. cbv zeta.
  destruct (report_parts l goals limits clock)
    as [I [E [V [N [S [T [B [R [H _]]]]]]]]].
  destruct (report_parts (filter notInvestment l) goals limits clock)
    as [I' [E' [V' [N' [S' [T' [B' [R' [H' _]]]]]]]]].
  assert (Ei : ofType "income" (filter notInvestment l) = ofType "income" l)
    by (apply ofType_notInvestment; discriminate).
  assert (Ee : ofType "expense" (filter notInvestment l) = ofType "expense" l)
    by (apply ofType_notInvestment; discriminate).
  assert (Ev : ofType "investment" (filter notInvestment l) = []).
  { unfold ofType. apply filter_none. intros t Ht.
    apply filter_In in Ht. destruct Ht as [_ Ht]. unfold notInvestment in Ht.
    now apply negb_true_iff in Ht. }
  assert (Eb : forall m y, analyzeBudgets limits (filter notInvestment l) m y
                           = analyzeBudgets limits l m y).
  { intros m y. apply analyzeBudgets_ext. intros b.
    rewrite <- (categorySpent_expenses (filter notInvestment l)),
            <- (categorySpent_expenses l).
    now rewrite Ee. }
  assert (Et : analyzeSpendingTrends (filter notInvestment l) = analyzeSpendingTrends l).
  { unfold analyzeSpendingTrends.
    rewrite (fold_left_filter_noop bucket notInvestment l); [reflexivity|].
    intros a t Ht. apply bucket_not_bucketed. now apply isBucketed_notInvestment. }
  assert (Em : metricsOf (filter notInvestment l) goals limits clock
               = metricsOf l goals limits clock).
  { unfold metricsOf, rawSavingsRate. now rewrite Ei, Ee, Eb, Et. }
  rewrite I', E', V', N', S', T', B', R', H', I, E, N, S, T, B, R, H.
  unfold flowOf, rawSavingsRate. rewrite Ei, Ee, Ev, Eb, Et, Em.
  repeat split.
Qed.

Lemma type_counts (l : list Transaction) :
  len (ofType "income" l) + len (ofType "expense" l) + len (ofType "investment" l)
  <= len l
  /\ (Forall knownType l ->
      len (ofType "income" l) + len (ofType "expense" l) + len (ofType "investment" l)
      = len l).
Proof.
  unfold len, ofType. induction l as [|t l [IH1 IH2]].
  - cbn. split; [lia | reflexivity].
  - cbn [filter].
    assert (H : (if strict_eq (type t) (VStr "income") then 1 else 0)
                + (if strict_eq (type t) (VStr "expense") then 1 else 0)
                + (if strict_eq (type t) (VStr "investment") then 1 else 0) <= 1
                /\ (knownType t ->
                    (if strict_eq (type t) (VStr "income") then 1 else 0)
                    + (if strict_eq (type t) (VStr "expense") then 1 else 0)
                    + (if strict_eq (type t) (VStr "investment") then 1 else 0) = 1)).
    { split.
      - destruct (strict_eq (type t) (VStr "income")) eqn:A.
        + rewrite (strict_eq_other _ _ "expense" A), (strict_eq_other _ _ "investment" A)
            by discriminate. lia.
        + destruct (strict_eq (type t) (VStr "expense")) eqn:B.
          * rewrite (strict_eq_other _ _ "investment" B) by discriminate. lia.
          * destruct (strict_eq (type t) (VStr "investment")); lia.
      - intros [K|[K|K]]; rewrite K; reflexivity. }
    destruct H as [H1 H2].
    split.
    + destruct (strict_eq (type t) (VStr "income")),
               (strict_eq (type t) (VStr "expense")),
               (strict_eq (type t) (VStr "investment"));
        cbn [List.length] in *; lia.
    + intros HF. apply Forall_cons_iff in HF. destruct HF as [Kt Kl].
      specialize (IH2 Kl). specialize (H2 Kt).
      destruct (strict_eq (type t) (VStr "income")),
               (strict_eq (type t) (VStr "expense")),
               (strict_eq (type t) (VStr "investment"));
        cbn [List.length] in *; lia.
Qed.

(** X7: the transaction counts of the three types never add up to more
    than the number of transactions, and add up to it when every
    transaction is an income, an expense or an investment. *)
Theorem report_counts_transactions :
  forall (l : list Transaction) (goals : list Target) (limits : list Budget)
         (clock : Clock),
    let r := fst (performFinancialAnalysis l goals limits clock) in
    transactions (income r) + transactions (expenses r) + transactions (investments r)
    <= totalTransactions (period r)
    /\ (Forall knownType l ->
        transactions (income r) + transactions (expenses r) + transactions (investments r)
        = totalTransactions (period r)).
Proof.
  intros l goals limits clock. cbv zeta.
  destruct (report_parts l goals limits clock)
    as [I [E [V [_ [_ [_ [_ [_ [_ P]]]]]]]]].
  rewrite I, E, V, P. unfold flowOf. cbn [transactions]. apply type_counts.
Qed.

(** X9: without a transaction of type income the savings rate is 0,
    whatever was spent (the division by a total income of 0 is not
    made); the income part of the report is zero and its breakdown is
    empty. *)
Theorem no_income_no_savings_rate :
  forall (l : list Transaction) (goals : list Target) (limits : list Budget)
         (clock : Clock),
    ofType "income" l = [] ->
    let r := fst (performFinancialAnalysis l goals limits clock) in
    total (income r) = VNum 0
    /\ monthly (income r) = 0%float
    /\ savingsRate r = 0%float
    /\ categories (income r) = Some [].
Proof.
  intros l goals limits clock H. cbv zeta.
  destruct (report_parts l goals limits clock) as [I [_ [_ [_ [S _]]]]].
  rewrite I, S. unfold flowOf, rawSavingsRate. rewrite H. repeat split.
Qed.

End ReportMore.

Lemma no_income_no_savings_rate_witness :
  let l := [transaction "2024-01-15" 500 "expense" "Food";
            transaction "2024-02-03" 200 "investment" "Funds"] in
  let r := fst (performFinancialAnalysis l [] [] (at_time "2024-06-10")) in
  ofType "income" l = []
  /\ total (expenses r) = VNum 500
  /\ total (income r) = VNum 0
  /\ monthly (income r) = 0%float
  /\ savingsRate r = 0%float
  /\ categories (income r) = Some [].
Proof.
  intros l r.
  assert (H : ofType "income" l = []) by reflexivity.
  split; [exact H|]. split; [vm_compute; reflexivity|].
  exact (no_income_no_savings_rate l [] [] (at_time "2024-06-10") H).
Defined.



(* ------------------------------------------------------------------ *)
(** *** The points of the health score *)

Section HealthMore.
Context {rt : Runtime}.

Lemma healthScore_points (metrics : Metrics) :
  calculateFinancialHealthScore metrics = Num.Z2F (pointsOf metrics).
Proof.
  unfold calculateFinancialHealthScore, pointsOf, savingsPoints, netIncomePoints,
    progressPoints, budgetPoints, trendPoints.
  destruct (trendDirection (m_spendingTrends metrics));
    repeat match goal with
           | |- context [if ?c then _ else _] => destruct c
           end;
    vm_compute; reflexivity.
Qed.

Lemma points_range (metrics : Metrics) : 0 <= pointsOf metrics <= 100.
Proof.
  unfold pointsOf, savingsPoints, netIncomePoints, progressPoints, budgetPoints,
    trendPoints.
  destruct (trendDirection (m_spendingTrends metrics));
    repeat match goal with
           | |- context [if ?c then _ else _] => destruct c
           end;
    lia.
Qed.

(** X10: the health score is the sum of the points of the five factors
    (the division by the maximum and the rounding change nothing), and
    it is a multiple of 5 between 0 and 100. *)
Theorem healthScore_is_points :
  forall metrics : Metrics,
    calculateFinancialHealthScore metrics = Num.Z2F (pointsOf metrics)
    /\ exists k : Z, 0 <= k <= 20 /\ pointsOf metrics = 5 * k.
Proof.
  intros metrics. split; [apply healthScore_points|].
  unfold pointsOf, savingsPoints, netIncomePoints, progressPoints, budgetPoints,
    trendPoints.
  destruct (trendDirection (m_spendingTrends metrics));
    repeat match goal with
           | |- context [if ?c then _ else _] => destruct c
           end;
    match goal with
    | |- exists k, _ /\ ?n = _ => exists (n / 5); vm_compute; repeat split; discriminate
    end.
Qed.

Lemma ge_mono (a b c : float) :
  Num.ge a c = true -> Num.le a b = true -> Num.ge b c = true.
Proof. unfold Num.ge, Num.le. intros H1 H2. eapply float_le_trans; eauto. Qed.

Lemma gt_mono (a b c : float) :
  Num.gt a c = true -> Num.le a b = true -> Num.gt b c = true.
Proof. unfold Num.gt, Num.le. intros H1 H2. eapply float_lt_le_trans; eauto. Qed.

Lemma savingsPoints_mono (a b : float) :
  Num.le a b = true -> savingsPoints a <= savingsPoints b.
Proof.
  intros H. unfold savingsPoints.
  destruct (Num.ge a 20) eqn:A1; [rewrite (ge_mono _ _ _ A1 H); lia|].
  destruct (Num.ge a 10) eqn:A2;
    [rewrite (ge_mono _ _ _ A2 H); destruct (Num.ge b 20); lia|].
  destruct (Num.ge a 5) eqn:A3;
    [rewrite (ge_mono _ _ _ A3 H); destruct (Num.ge b 20), (Num.ge b 10); lia|].
  destruct (Num.ge b 20), (Num.ge b 10), (Num.ge b 5); lia.
Qed.

Lemma netIncomePoints_mono (a b : float) :
  Num.le a b = true -> netIncomePoints a <= netIncomePoints b.
Proof.
  intros H. unfold netIncomePoints.
  destruct (Num.gt a 0) eqn:A1; [rewrite (gt_mono _ _ _ A1 H); lia|].
  destruct (Num.ge a (-1000)) eqn:A2;
    [rewrite (ge_mono _ _ _ A2 H); destruct (Num.gt b 0); lia|].
  destruct (Num.gt b 0), (Num.ge b (-1000)); lia.
Qed.

Lemma progressPoints_mono (a b : float) :
  Num.le a b = true -> progressPoints a <= progressPoints b.
Proof.
  intros H. unfold progressPoints.
  destruct (Num.ge a 80) eqn:A1; [rewrite (ge_mono _ _ _ A1 H); lia|].
  destruct (Num.ge a 50) eqn:A2;
    [rewrite (ge_mono _ _ _ A2 H); destruct (Num.ge b 80); lia|].
  destruct (Num.ge a 25) eqn:A3;
    [rewrite (ge_mono _ _ _ A3 H); destruct (Num.ge b 80), (Num.ge b 50); lia|].
  destruct (Num.ge b 80), (Num.ge b 50), (Num.ge b 25); lia.
Qed.

(** X11: a higher savings rate, a higher monthly net income and a higher
    progress towards the targets never lower the health score, the
    budgets and the trend being the same. *)
Theorem healthScore_monotone :
  forall m1 m2 : Metrics,
    m_budgetAnalysis m1 = m_budgetAnalysis m2 ->
    trendDirection (m_spendingTrends m1) = trendDirection (m_spendingTrends m2) ->
    Num.le (m_savingsRate m1) (m_savingsRate m2) = true ->
    Num.le (m_monthlyNetIncome m1) (m_monthlyNetIncome m2) = true ->
    Num.le (overallProgress (m_targetAnalysis m1))
           (overallProgress (m_targetAnalysis m2)) = true ->
    exists n1 n2 : Z,
      calculateFinancialHealthScore m1 = Num.Z2F n1
      /\ calculateFinancialHealthScore m2 = Num.Z2F n2
      /\ n1 <= n2.
Proof.
  intros m1 m2 Hb Ht Hs Hn Hp.
  exists (pointsOf m1), (pointsOf m2).
  split; [apply healthScore_points|]. split; [apply healthScore_points|].
  unfold pointsOf. rewrite Hb, Ht.
  pose proof (savingsPoints_mono _ _ Hs).
  pose proof (netIncomePoints_mono _ _ Hn).
  pose proof (progressPoints_mono _ _ Hp).
  lia.
Qed.

End HealthMore.

Lemma healthScore_monotone_witness :
  let spender := [transaction "2024-01-15" 1000 "income" "Salary";
                  transaction "2024-01-20" 950 "expense" "Food"] in
  let saver := [transaction "2024-01-15" 1000 "income" "Salary";
                transaction "2024-01-20" 500 "expense" "Food"] in
  let m1 := metricsOf spender [] [] (at_time "2024-06-10") in
  let m2 := metricsOf saver [] [] (at_time "2024-06-10") in
  (m_savingsRate m1 = 5%float /\ m_savingsRate m2 = 50%float)
  /\ (m_monthlyNetIncome m1 = 50%float /\ m_monthlyNetIncome m2 = 500%float)
  /\ exists n1 n2 : Z,
       calculateFinancialHealthScore m1 = Num.Z2F n1
       /\ calculateFinancialHealthScore m2 = Num.Z2F n2
       /\ n1 <= n2.
Proof.
  intros spender saver m1 m2.
  split; [split; vm_compute; reflexivity|].
  split; [split; vm_compute; reflexivity|].
  assert (Hb : m_budgetAnalysis m1 = m_budgetAnalysis m2)
    by (vm_compute; reflexivity).
  assert (Ht : trendDirection (m_spendingTrends m1)
               = trendDirection (m_spendingTrends m2))
    by (vm_compute; reflexivity).
  assert (Hs : Num.le (m_savingsRate m1) (m_savingsRate m2) = true)
    by (vm_compute; reflexivity).
  assert (Hn : Num.le (m_monthlyNetIncome m1) (m_monthlyNetIncome m2) = true)
    by (vm_compute; reflexivity).
  assert (Hp : Num.le (overallProgress (m_targetAnalysis m1))
                      (overallProgress (m_targetAnalysis m2)) = true)
    by (vm_compute; reflexivity).
  exact (healthScore_monotone m1 m2 Hb Ht Hs Hn Hp).
Defined.

(* ------------------------------------------------------------------ *)
(** *** What the report takes from the clock *)

Section ClockMore.
Context {rt : Runtime}.

Lemma analyzeTargets_clock_free (goals : list Target) (c1 c2 : Clock) :
  let a1 := fst (analyzeTargets goals c1) in
  let a2 := fst (analyzeTargets goals c2) in
  totalTargets a1 = totalTargets a2
  /\ totalTargetAmount a1 = totalTargetAmount a2
  /\ totalCurrentAmount a1 = totalCurrentAmount a2
  /\ overallProgress a1 = overallProgress a2
  /\ completedTargets a1 = completedTargets a2.
Proof.
  cbv zeta. unfold analyzeTargets, bind.
  destruct (filterM onTrack goals c1) as [r1 e1],
           (filterM onTrack goals c2) as [r2 e2].
  unfold ret. cbn [fst]. repeat split.
Qed.

(** X17: of the time of the analysis, the report keeps the month and the
    year (for the budgets) and the on-track test of the targets, and
    nothing else: two analyses of the same collections in the same month
    of the same year differ at most in the targets counted on track and
    behind.  The health score is the same, since it reads neither of
    these counts. *)
Theorem report_reads_month_and_year :
  forall (l : list Transaction) (goals : list Target) (limits : list Budget)
         (c1 c2 : Clock),
    monthOf c1 = monthOf c2 ->
    yearOf c1 = yearOf c2 ->
    let r1 := fst (performFinancialAnalysis l goals limits c1) in
    let r2 := fst (performFinancialAnalysis l goals limits c2) in
    income r1 = income r2
    /\ expenses r1 = expenses r2
    /\ investments r1 = investments r2
    /\ netIncome r1 = netIncome r2
    /\ savingsRate r1 = savingsRate r2
    /\ budgets r1 = budgets r2
    /\ trends r1 = trends r2
    /\ healthScore r1 = healthScore r2
    /\ period r1 = period r2
    /\ totalTargets (targets r1) = totalTargets (targets r2)
    /\ totalTargetAmount (targets r1) = totalTargetAmount (targets r2)
    /\ totalCurrentAmount (targets r1) = totalCurrentAmount (targets r2)
    /\ overallProgress (targets r1) = overallProgress (targets r2)
    /\ completedTargets (targets r1) = completedTargets (targets r2).
Proof.
  intros l goals limits c1 c2 Hm Hy. cbv zeta.
  destruct (report_parts l goals limits c1)
    as [I [E [V [N [S [T [B [R [H _]]]]]]]]].
  destruct (report_parts l goals limits c2)
    as [I' [E' [V' [N' [S' [T' [B' [R' [H' _]]]]]]]]].
  destruct (analyzeTargets_clock_free goals (later c1) (later c2))
    as [A1 [A2 [A3 [A4 A5]]]].
  rewrite !period_of_report.
  rewrite I, E, V, N, S, T, B, R, H, I', E', V', N', S', T', B', R', H'.
  rewrite !healthScore_points.
  unfold pointsOf, metricsOf.
  cbn [m_savingsRate m_monthlyNetIncome m_targetAnalysis m_budgetAnalysis
       m_spendingTrends].
  rewrite Hm, Hy, A4. repeat split; assumption.
Qed.

End ClockMore.

Lemma report_reads_month_and_year_witness :
  let l := [transaction "2024-06-02" 300 "expense" "Food";
            transaction "2024-05-28" 2000 "income" "Salary"] in
  let goals := [target 10000 3500 "2025-01-01" "2024-01-01 00:00:00"] in
  let limits := [budget "Food" 250 6 2024] in
  let r1 := fst (performFinancialAnalysis l goals limits (at_time "2024-06-01")) in
  let r2 := fst (performFinancialAnalysis l goals limits (at_time "2024-06-30")) in
  (monthOf (at_time "2024-06-01") = monthOf (at_time "2024-06-30")
   /\ yearOf (at_time "2024-06-01") = yearOf (at_time "2024-06-30"))
  /\ (onTrackTargets (targets r1) = 1 /\ onTrackTargets (targets r2) = 0)
  /\ income r1 = income r2
  /\ expenses r1 = expenses r2
  /\ investments r1 = investments r2
  /\ netIncome r1 = netIncome r2
  /\ savingsRate r1 = savingsRate r2
  /\ budgets r1 = budgets r2
  /\ trends r1 = trends r2
  /\ healthScore r1 = healthScore r2
  /\ period r1 = period r2
  /\ totalTargets (targets r1) = totalTargets (targets r2)
  /\ totalTargetAmount (targets r1) = totalTargetAmount (targets r2)
  /\ totalCurrentAmount (targets r1) = totalCurrentAmount (targets r2)
  /\ overallProgress (targets r1) = overallProgress (targets r2)
  /\ completedTargets (targets r1) = completedTargets (targets r2).
Proof.
  intros l goals limits r1 r2.
  assert (Hm : monthOf (at_time "2024-06-01") = monthOf (at_time "2024-06-30"))
    by (vm_compute; reflexivity).
  assert (Hy : yearOf (at_time "2024-06-01") = yearOf (at_time "2024-06-30"))
    by (vm_compute; reflexivity).
  split; [split; assumption|].
  split; [split; vm_compute; reflexivity|].
  exact (report_reads_month_and_year l goals limits
           (at_time "2024-06-01") (at_time "2024-06-30") Hm Hy).
Defined.


(* ------------------------------------------------------------------ *)
(** *** A date that does not parse *)

Section AverageMore.
Context {rt : Runtime}.

(** X12: one transaction whose date does not parse makes the monthly
    average of its list NaN: it is not skipped. *)
Theorem invalid_date_spoils_average :
  forall (transactions : list Transaction) (t : Transaction),
    In t transactions ->
    new_Date (date t) = None ->
    calculateMonthlyAverage transactions = nan.
Proof.
  intros l t Ht Hd. unfold calculateMonthlyAverage.
  destruct l as [|t0 l0]; [destruct Ht|].
  cbn [List.length Nat.eqb].
  assert (Hin : In None (map (fun t => new_Date (date t)) (t0 :: l0))).
  { rewrite <- Hd. now apply (in_map (fun t => new_Date (date t))). }
  rewrite !(extreme_date_invalid _ _ Hin).
  cbn [getFullYear getMonth option_map int_num].
  unfold js_div. cbn [ToNumber]. apply div_nan.
Qed.

End AverageMore.

Lemma invalid_date_spoils_average_witness :
  let undatable := transaction "mid January" 50 "income" "Gift" in
  let l := [transaction "2024-01-15" 100 "income" "Salary"; undatable] in
  In undatable l
  /\ new_Date (date undatable) = None
  /\ calculateMonthlyAverage l = nan.
Proof.
  intros undatable l.
  assert (H : In undatable l) by (right; left; reflexivity).
  assert (Hd : new_Date (date undatable) = None) by reflexivity.
  split; [exact H|]. split; [exact Hd|].
  exact (invalid_date_spoils_average l undatable H Hd).
Defined.

(* ------------------------------------------------------------------ *)
(** *** A target without its dates *)

Lemma sub_nan_l (x : float) : (nan - x)%float = nan.
Proof.
  apply Prim2SF_inj. rewrite sub_spec.
  change (Prim2SF nan) with S754_nan. reflexivity.
Qed.

Lemma sub_nan_r (x : float) : (x - nan)%float = nan.
Proof.
  apply Prim2SF_inj. rewrite sub_spec.
  change (Prim2SF nan) with S754_nan.
  unfold SF64sub, SFsub. now destruct (Prim2SF x).
Qed.

Lemma nan_div (x : float) : (nan / x)%float = nan.
Proof.
  apply Prim2SF_inj. rewrite div_spec.
  change (Prim2SF nan) with S754_nan. reflexivity.
Qed.

Lemma nan_mul (x : float) : (nan * x)%float = nan.
Proof.
  apply Prim2SF_inj. rewrite mul_spec.
  change (Prim2SF nan) with S754_nan. reflexivity.
Qed.

Lemma ge_nan (x : float) : Num.ge x nan = false.
Proof.
  unfold Num.ge. rewrite leb_spec.
  change (Prim2SF nan) with S754_nan. reflexivity.
Qed.

Section TargetMore.
Context {rt : Runtime}.

Lemma onTrack_undated (t : Target) (c : Clock) :
  dated t = false -> fst (onTrack t c) = false.
Proof.
  unfold dated, onTrack, bind, Date_now, ret. cbn [fst]. intros H.
  assert (E : ((Date_valueOf (new_Date (target_date t))
                - Date_valueOf (new_Date (created_at t)))
               / (1000 * 60 * 60 * 24))%float = nan).
  { unfold Date_valueOf.
    destruct (new_Date (target_date t)), (new_Date (created_at t));
      try discriminate; cbn [int_num];
      rewrite ?sub_nan_l, ?sub_nan_r; apply nan_div. }
  rewrite E, div_nan.
  change (Num.Math_min nan 1) with nan.
  rewrite nan_mul. apply ge_nan.
Qed.

Lemma filterM_onTrack_dated (l : list Target) :
  forall c : Clock,
    (List.length (fst (filterM onTrack l c)) <= List.length (filter dated l))%nat.
Proof.
  induction l as [|t l IH]; intros c; [cbn; lia|].
  cbn [filterM filter]. unfold bind.
  pose proof (onTrack_undated t c) as U.
  destruct (onTrack t c) as [k d]. cbn [fst] in U.
  specialize (IH d).
  destruct (filterM onTrack l d) as [r e]. unfold ret. cbn [fst] in *.
  destruct (dated t).
  - destruct k; cbn [List.length]; lia.
  - rewrite U by reflexivity. exact IH.
Qed.

(** X18: a target is counted on track only when its [target_date] and its
    [created_at] are dates: with one of them missing or unreadable the
    expected progress is NaN and the test fails, whatever the amounts
    and the time.  So the targets on track are no more than the dated
    ones, and where none is dated none is on track. *)
Theorem undated_targets_not_on_track :
  forall (goals : list Target) (clock : Clock),
    let ta := fst (analyzeTargets goals clock) in
    0 <= onTrackTargets ta <= len (filter dated goals)
    /\ (filter dated goals = [] ->
        onTrackTargets ta = 0
        /\ behindTargets ta = totalTargets ta - completedTargets ta).
Proof.
  intros goals clock. cbv zeta.
  pose proof (filterM_onTrack_dated goals clock) as H.
  unfold analyzeTargets, bind.
  destruct (filterM onTrack goals clock) as [on c']. unfold ret.
  cbn [fst onTrackTargets behindTargets totalTargets completedTargets] in *.
  unfold len. split; [lia|].
  intros E. rewrite E in H. cbn [List.length] in H. lia.
Qed.

End TargetMore.

(** A target that is funded in full but whose creation date cannot be
    read is completed and not on track; the same target created on
    1 January is both. *)
Example undated_target_completed_only :
  let lost := {| target_amount := VNum 10000; current_amount := VNum 10000;
                 target_date := VStr "2030-01-01"; created_at := VUndefined |} in
  let ta := fst (analyzeTargets [lost] (at_time "2024-06-10")) in
  let ta' := fst (analyzeTargets [target 10000 10000 "2030-01-01" "2024-01-01 00:00:00"]
                    (at_time "2024-06-10")) in
  (completedTargets ta = 1 /\ onTrackTargets ta = 0 /\ behindTargets ta = 0)
  /\ (completedTargets ta' = 1 /\ onTrackTargets ta' = 1 /\ behindTargets ta' = -1).
Proof. vm_compute. repeat split. Qed.

(* ------------------------------------------------------------------ *)
(** *** Recommendations *)

Section AdviceMore.
Context {rt : Runtime}.

(** X13: of the five rules of [generateRecommendations], the two that
    read [analysis.monthlyNetIncome] never fire, since the report has no
    such property: no recommendation is of type income or investment and
    none is critical.  The recommendations are those of the three other
    rules, in the order savings, targets, budget. *)
Theorem generateRecommendations_types :
  forall analysis : Report,
    let recs := generateRecommendations analysis in
    map rec_type recs = expectedAdvice analysis
    /\ ~ In "income" (map rec_type recs)
    /\ ~ In "investment" (map rec_type recs)
    /\ ~ In "critical" (map priority recs)
    /\ (List.length recs <= 3)%nat.
Proof.
  intros analysis. cbv zeta.
  unfold generateRecommendations, expectedAdvice, monthlyNetIncome.
  change (js_lt VUndefined (VNum 0)) with false.
  change (js_gt VUndefined (VNum 0)) with false.
  rewrite andb_false_r.
  destruct (Num.lt (savingsRate analysis) 10),
           (0 <? behindTargets (targets analysis)),
           (0 <? overBudget (budgets analysis));
    cbn; repeat split; try lia;
    intros H; repeat (destruct H as [H|H]; [discriminate|]); exact H.
Qed.

End AdviceMore.


(* ------------------------------------------------------------------ *)
(** *** The summary *)

Lemma upto_100 (n : Z) : 0 <= n <= 100 -> In n (map Z.of_nat (seq 0 101)).
Proof.
  intros H. rewrite <- (Z2Nat.id n) by lia. apply in_map. apply in_seq. lia.
Qed.

Section SummaryMore.
Context {rt : Runtime}.

Lemma status_of_score (analysis : Report) (n : Z) :
  0 <= n <= 100 ->
  healthScore analysis = Num.Z2F n ->
  healthStatus (generateSummary analysis) = statusOf n.
Proof.
  intros Hn E. unfold generateSummary. cbn [healthStatus]. rewrite E.
  clear E. apply upto_100 in Hn. cbn [seq map] in Hn.
  repeat (destruct Hn as [<-|Hn]; [vm_compute; reflexivity|]).
  destruct Hn.
Qed.

(** X14: the summary of a report of the engine carries its score, an
    integer from 0 to 100, and the label of that score: Excellent from
    80, Good from 60, Fair from 40, Poor below. *)
Theorem generateSummary_status :
  forall (l : list Transaction) (goals : list Target) (limits : list Budget)
         (clock : Clock),
    let r := fst (performFinancialAnalysis l goals limits clock) in
    exists n : Z,
      0 <= n <= 100
      /\ sum_healthScore (generateSummary r) = Num.Z2F n
      /\ healthStatus (generateSummary r) = statusOf n.
Proof.
  intros l goals limits clock. cbv zeta.
  destruct (report_parts l goals limits clock) as [_ [_ [_ [_ [_ [_ [_ [_ [H _]]]]]]]]].
  rewrite healthScore_points in H.
  pose proof (points_range (metricsOf l goals limits clock)) as Hr.
  exists (pointsOf (metricsOf l goals limits clock)).
  split; [lia|]. split; [exact H|].
  apply status_of_score; [lia | exact H].
Qed.

Lemma not_above_15_and_below_10 (x : float) :
  Num.gt x 15 = true -> Num.lt x 10 = true -> False.
Proof.
  unfold Num.gt, Num.lt. intros H1 H2.
  pose proof (float_lt_trans _ _ _ H1 H2) as H. vm_compute in H. discriminate.
Qed.

Lemma filter_orNull_cons (c : bool) (s : string) (l : list value) (v : value) :
  In v (filter ToBoolean (orNull c s :: l))
  <-> (c = true /\ s <> "" /\ v = VStr s) \/ In v (filter ToBoolean l).
Proof.
  destruct c; cbn [orNull filter ToBoolean].
  - destruct (String.eqb_spec s "") as [E|E]; cbn [negb In].
    + split; [now right|]. intros [[_ [H _]]|H]; [contradiction | exact H].
    + split.
      * intros [<-|H]; [left; repeat split; assumption | now right].
      * intros [[_ [_ ->]]|H]; [now left | now right].
  - split; [now right|]. intros [[H _]|H]; [discriminate | exact H].
Qed.

Ltac cases :=
  repeat match goal with
         | H : _ \/ _ |- _ => destruct H
         | H : _ /\ _ |- _ => destruct H
         end;
  try discriminate.

Lemma In_four (v : value) (c1 c2 c3 c4 : bool) (s1 s2 s3 s4 : string) :
  In v (filter ToBoolean [orNull c1 s1; orNull c2 s2; orNull c3 s3; orNull c4 s4])
  <-> (c1 = true /\ s1 <> "" /\ v = VStr s1)
      \/ (c2 = true /\ s2 <> "" /\ v = VStr s2)
      \/ (c3 = true /\ s3 <> "" /\ v = VStr s3)
      \/ (c4 = true /\ s4 <> "" /\ v = VStr s4).
Proof.
  rewrite !filter_orNull_cons. cbn [filter In]. tauto.
Qed.

(** X15: in the summary of a report of the engine, the strength and the
    weakness that read [analysis.monthlyNetIncome] never appear and the
    monthly savings are undefined; the budgets give either the strength
    or the weakness, never both and never neither; the savings rate
    never gives both; and no null is left in the two lists. *)
Theorem generateSummary_lists :
  forall (l : list Transaction) (goals : list Target) (limits : list Budget)
         (clock : Clock),
    let s := generateSummary (fst (performFinancialAnalysis l goals limits clock)) in
    ~ In (VStr "Positive cash flow") (strengths s)
    /\ ~ In (VStr "Improve cash flow") (areasForImprovement s)
    /\ monthlySavings (keyMetrics s) = VUndefined
    /\ (In (VStr "Good budget adherence") (strengths s)
        <-> ~ In (VStr "Better budget management") (areasForImprovement s))
    /\ ~ (In (VStr "Good savings rate") (strengths s)
          /\ In (VStr "Increase savings rate") (areasForImprovement s))
    /\ ~ In VNull (strengths s) /\ ~ In VNull (areasForImprovement s).
Proof.
  intros l goals limits clock. cbv zeta.
  destruct (report_parts l goals limits clock) as [_ [_ [_ [_ [_ [_ [B _]]]]]]].
  pose proof (overBudget_nonneg limits l (monthOf clock) (yearOf clock)) as C.
  rewrite <- B in C.
  set (r := fst (performFinancialAnalysis l goals limits clock)) in *.
  unfold generateSummary, monthlyNetIncome.
  cbn [strengths areasForImprovement keyMetrics monthlySavings].
  change (js_lt VUndefined (VNum 0)) with false.
  change (js_gt VUndefined (VNum 0)) with false.
  rewrite !In_four.
  pose proof (not_above_15_and_below_10 (savingsRate r)) as X.
  assert (Hover : (overBudget (budgets r) =? 0) = negb (0 <? overBudget (budgets r))).
  { destruct (Z.eqb_spec (overBudget (budgets r)) 0) as [E|E];
      destruct (Z.ltb_spec 0 (overBudget (budgets r))) as [L|L]; try reflexivity; lia. }
  rewrite Hover.
  repeat split.
  - intros H. cases.
  - intros H. cases.
  - intros H H'. destruct (0 <? overBudget (budgets r)); cases.
  - intros H. destruct (0 <? overBudget (budgets r)).
    + exfalso. apply H. right. right. right. repeat split. discriminate.
    + right. right. right. repeat split. discriminate.
  - intros [H H']. cases. now apply X.
  - intros H. cases.
  - intros H. cases.
Qed.

(** X16: for transactions without an income, the first recommendation is
    the one to increase the savings rate, of high priority, and the
    summary lists the savings rate as an area for improvement and not as
    a strength. *)
Theorem no_income_advises_saving :
  forall (l : list Transaction) (goals : list Target) (limits : list Budget)
         (clock : Clock),
    ofType "income" l = [] ->
    let r := fst (performFinancialAnalysis l goals limits clock) in
    (exists rec rest,
        generateRecommendations r = rec :: rest
        /\ rec_type rec = "savings" /\ priority rec = "high")
    /\ In (VStr "Increase savings rate") (areasForImprovement (generateSummary r))
    /\ ~ In (VStr "Good savings rate") (strengths (generateSummary r)).
Proof.
  intros l goals limits clock H. cbv zeta.
  destruct (report_parts l goals limits clock) as [_ [_ [_ [_ [S _]]]]].
  assert (E : savingsRate (fst (performFinancialAnalysis l goals limits clock)) = 0%float).
  { rewrite S. unfold rawSavingsRate. now rewrite H. }
  set (r := fst (performFinancialAnalysis l goals limits clock)) in *.
  split; [|split].
  - unfold generateRecommendations, monthlyNetIncome. rewrite E.
    change (Num.lt 0 10) with true.
    change (js_lt VUndefined (VNum 0)) with false.
    change (js_gt VUndefined (VNum 0)) with false.
    rewrite andb_false_r. cbn [app].
    destruct (0 <? behindTargets (targets r)), (0 <? overBudget (budgets r));
      cbn [app]; eexists; eexists; repeat split.
  - unfold generateSummary. cbn [areasForImprovement]. rewrite E.
    change (Num.lt 0 10) with true. cbn. now left.
  - unfold generateSummary. cbn [strengths]. rewrite E.
    change (Num.gt 0 15) with false. unfold monthlyNetIncome.
    change (js_gt VUndefined (VNum 0)) with false.
    destruct (0 <? completedTargets (targets r)), (overBudget (budgets r) =? 0);
      cbn; intros H'; repeat (destruct H' as [H'|H']; [discriminate|]); exact H'.
Qed.

End SummaryMore.

Lemma no_income_advises_saving_witness :
  let l := [transaction "2024-03-09" 80 "expense" "Transport"] in
  let r := fst (performFinancialAnalysis l [] [] (at_time "2024-06-10")) in
  ofType "income" l = []
  /\ map rec_type (generateRecommendations r) = ["savings"]
  /\ (exists rec rest,
         generateRecommendations r = rec :: rest
         /\ rec_type rec = "savings" /\ priority rec = "high")
  /\ In (VStr "Increase savings rate") (areasForImprovement (generateSummary r))
  /\ ~ In (VStr "Good savings rate") (strengths (generateSummary r)).
Proof.
  intros l r.
  assert (H : ofType "income" l = []) by reflexivity.
  split; [exact H|]. split; [vm_compute; reflexivity|].
  exact (no_income_advises_saving l [] [] (at_time "2024-06-10") H).
Defined.
